(** * Solar neighbourhood visualizer: route planner, camera and session state

    A shallow embedding of [src/visualization.py] (class [PyGameVisualizer]).

    Conventions of the embedding.
    - Python floats are read as real numbers ([R]): arithmetic is exact, and
      [float('inf')] is the extra point [None] of [option R].  Comparisons are
      booleans obtained from the decidable order on [R].
    - A Python [dict] whose iteration order is observable is an association
      list kept in insertion order (assigning to an existing key keeps its
      position, as in Python).
    - A subscript [d[k]] on a missing key raises [KeyError]; code that can
      raise lives in the [result] monad.
    - The instance attributes of [PyGameVisualizer] are the fields of one
      record, threaded explicitly through the methods that assign to them. *)

From Stdlib Require Import Reals Lra Lia List String Ascii Bool Arith ZArith NArith Permutation.
Import ListNotations.

Open Scope string_scope.
Open Scope list_scope.
Open Scope R_scope.

(** ** Python runtime: comparisons, exceptions, dictionaries *)

Definition Rltb (a b : R) : bool := if Rlt_dec a b then true else false.
Definition Rleb (a b : R) : bool := if Rle_dec a b then true else false.

Notation "a <? b" := (Rltb a b) (at level 70, no associativity) : R_scope.
Notation "a <=? b" := (Rleb a b) (at level 70, no associativity) : R_scope.
Notation "a >? b" := (Rltb b a) (at level 70, no associativity) : R_scope.
Notation "a >=? b" := (Rleb b a) (at level 70, no associativity) : R_scope.

(** [float('inf')] compared from the left: [s < best] where [best] may be
    infinite. *)
Definition lt_best (s : R) (best : option R) : bool :=
  match best with
  | None => true
  | Some b => s <? b
  end.

Inductive exn : Type :=
| KeyError (key : string).

Inductive result (A : Type) : Type :=
| Ok (a : A)
| Raise (e : exn).

Arguments Ok {A} a.
Arguments Raise {A} e.

Definition bind {A B : Type} (m : result A) (k : A -> result B) : result B :=
  match m with
  | Ok a => k a
  | Raise e => Raise e
  end.

Notation "x <- m ;; k" := (bind m (fun x => k))
  (at level 61, m at next level, right associativity).

Module Dict.

Section WithKey.
Context {K V : Type}.
Variable eqb : K -> K -> bool.

(** [d.get(k)] *)
Fixpoint get (k : K) (d : list (K * V)) : option V :=
  match d with
  | [] => None
  | (k', v) :: rest => if eqb k k' then Some v else get k rest
  end.

(** [k in d] *)
Definition mem (k : K) (d : list (K * V)) : bool :=
  match get k d with
  | Some _ => true
  | None => false
  end.

(** [d[k] = v] *)
Fixpoint set (k : K) (v : V) (d : list (K * V)) : list (K * V) :=
  match d with
  | [] => [(k, v)]
  | (k', v') :: rest =>
      if eqb k k' then (k', v) :: rest else (k', v') :: set k v rest
  end.

End WithKey.

End Dict.

(** [d[k]] on a dictionary keyed by names. *)
Definition subscript {V : Type} (d : list (string * V)) (k : string) : result V :=
  match Dict.get String.eqb k d with
  | Some v => Ok v
  | None => Raise (KeyError k)
  end.

(** [nm in visited] for a Python set of names; only membership is ever
    asked of it, so a list of the added names stands for the set. *)
Definition name_in (nm : string) (s : list string) : bool :=
  existsb (String.eqb nm) s.

(** Truthiness of an optional name: [None] and the empty string are false. *)
Definition truthy (s : option string) : bool :=
  match s with
  | None => false
  | Some nm => negb (String.eqb nm "")
  end.

(** ** Catalog rows *)

Record Star : Type := mkStar {
  name : string;
  x : R;
  y : R;
  z : R;
  distance_ly : R;
  abs_magnitude : R
}.

(** [_calculate_distance]: both arguments may be [None]. *)
Definition _calculate_distance (star1 star2 : option Star) : R :=
  match star1, star2 with
  | Some s1, Some s2 =>
      sqrt ((x s2 - x s1) ^ 2 + (y s2 - y s1) ^ 2 + (z s2 - z s1) ^ 2)
  | _, _ => 0
  end.

(** The call on two star objects. *)
Definition dist (a b : Star) : R := _calculate_distance (Some a) (Some b).

(** ** Session state *)

(** A measurement is a Python sequence of two names: a [tuple] when created
    by the measurement key, a [list] when read back from a JSON file. *)
Inductive pyseq : Type :=
| PyTuple (items : list string)
| PyList (items : list string).

Definition items_of (s : pyseq) : list string :=
  match s with
  | PyTuple l => l
  | PyList l => l
  end.

Definition list_eqb (a b : list string) : bool :=
  if list_eq_dec string_dec a b then true else false.

(** Python [==] on sequences: a tuple never equals a list. *)
Definition pyseq_eqb (a b : pyseq) : bool :=
  match a, b with
  | PyTuple l, PyTuple r => list_eqb l r
  | PyList l, PyList r => list_eqb l r
  | _, _ => false
  end.

(** Values of [route_cache]: a dictionary that holds ['distance'] (written
    by the planner and the line drawing) or the three route metrics (written
    by the route legend). *)
Record cache_entry : Type := mkEntry {
  ce_distance : option R;
  ce_metrics : option (R * R * R)
}.

Definition route_cache_t : Type := list (list string * cache_entry).

Record PyGameVisualizer : Type := mkVis {
  stars_df : list Star;
  width : R;
  height : R;
  camera_pos : R * R;
  zoom : R;
  rotation_x : R;
  rotation_y : R;
  rotation_z : R;
  glow_factor : R;
  max_distance : R;
  show_star_names : bool;
  show_galactic_plane : bool;
  show_coordinate_grid : bool;
  show_galactic_projections : bool;
  show_multiple_star_inset : bool;
  selected_star : option string;
  paused : bool;
  distance_lines : list pyseq;
  star_hop_routes : list (list string);
  route_cache : route_cache_t;
  rotation_center : R * R * R;
  rotation_center_star : option Star;
  screen_coords_cache : list (string * (R * R * R))
}.

(** [star_lookup_cache] is filled once by [__init__] from the rows of
    [stars_df] and never assigned again, so it is a function of [stars_df]. *)
Definition build_lookup_cache (rows : list Star) : list (string * Star) :=
  fold_left (fun d star => Dict.set String.eqb (name star) star d) rows [].

Definition star_lookup_cache (v : PyGameVisualizer) : list (string * Star) :=
  build_lookup_cache (stars_df v).

(** [__init__] *)
Definition init (df : list Star) : PyGameVisualizer :=
  {| stars_df := df;
     width := 1024;
     height := 768;
     camera_pos := (0, 0);
     zoom := 40;
     rotation_x := 0;
     rotation_y := 0;
     rotation_z := 0;
     glow_factor := 1.8;
     max_distance := 20;
     show_star_names := false;
     show_galactic_plane := false;
     show_coordinate_grid := false;
     show_galactic_projections := false;
     show_multiple_star_inset := true;
     selected_star := None;
     paused := false;
     distance_lines := [];
     star_hop_routes := [];
     route_cache := [];
     rotation_center := (0, 0, 0);
     rotation_center_star := None;
     screen_coords_cache := [] |}.

(** ** Projection *)

(** [_world_to_screen] *)
Definition _world_to_screen (v : PyGameVisualizer) (px py pz : R) : R * R * R :=
  let '(cx, cy, cz) := rotation_center v in
  let rel_x := px - cx in
  let rel_y := py - cy in
  let rel_z := pz - cz in
  let cos_x := cos (rotation_x v) in
  let sin_x := sin (rotation_x v) in
  let cos_y := cos (rotation_y v) in
  let sin_y := sin (rotation_y v) in
  let cos_z := cos (rotation_z v) in
  let sin_z := sin (rotation_z v) in
  (* rotation around the X axis *)
  let y_rot := rel_y * cos_x - rel_z * sin_x in
  let z_rot := rel_y * sin_x + rel_z * cos_x in
  let rel_y := y_rot in
  let rel_z := z_rot in
  (* rotation around the Y axis *)
  let x_rot := rel_x * cos_y + rel_z * sin_y in
  let z_rot := - rel_x * sin_y + rel_z * cos_y in
  let rel_x := x_rot in
  let rel_z := z_rot in
  (* rotation around the Z axis *)
  let x_rot := rel_x * cos_z - rel_y * sin_z in
  let y_rot := rel_x * sin_z + rel_y * cos_z in
  let rel_x := x_rot in
  let rel_y := y_rot in
  let screen_x := (width v * 0.5) + (rel_x * zoom v) + fst (camera_pos v) in
  let screen_y := (height v * 0.5) - (rel_y * zoom v) + snd (camera_pos v) in
  let size_factor := 1 + (rel_z * 0.1) in
  (screen_x, screen_y, size_factor).

(** ** Assignments to instance attributes *)

Definition set_selected_star (s : option string) (v : PyGameVisualizer) : PyGameVisualizer :=
  mkVis (stars_df v) (width v) (height v) (camera_pos v) (zoom v)
    (rotation_x v) (rotation_y v) (rotation_z v) (glow_factor v) (max_distance v)
    (show_star_names v) (show_galactic_plane v) (show_coordinate_grid v)
    (show_galactic_projections v) (show_multiple_star_inset v)
    s (paused v) (distance_lines v) (star_hop_routes v) (route_cache v)
    (rotation_center v) (rotation_center_star v) (screen_coords_cache v).

Definition set_distance_lines (l : list pyseq) (v : PyGameVisualizer) : PyGameVisualizer :=
  mkVis (stars_df v) (width v) (height v) (camera_pos v) (zoom v)
    (rotation_x v) (rotation_y v) (rotation_z v) (glow_factor v) (max_distance v)
    (show_star_names v) (show_galactic_plane v) (show_coordinate_grid v)
    (show_galactic_projections v) (show_multiple_star_inset v)
    (selected_star v) (paused v) l (star_hop_routes v) (route_cache v)
    (rotation_center v) (rotation_center_star v) (screen_coords_cache v).

Definition set_star_hop_routes (l : list (list string)) (v : PyGameVisualizer) : PyGameVisualizer :=
  mkVis (stars_df v) (width v) (height v) (camera_pos v) (zoom v)
    (rotation_x v) (rotation_y v) (rotation_z v) (glow_factor v) (max_distance v)
    (show_star_names v) (show_galactic_plane v) (show_coordinate_grid v)
    (show_galactic_projections v) (show_multiple_star_inset v)
    (selected_star v) (paused v) (distance_lines v) l (route_cache v)
    (rotation_center v) (rotation_center_star v) (screen_coords_cache v).

Definition set_route_cache (c : route_cache_t) (v : PyGameVisualizer) : PyGameVisualizer :=
  mkVis (stars_df v) (width v) (height v) (camera_pos v) (zoom v)
    (rotation_x v) (rotation_y v) (rotation_z v) (glow_factor v) (max_distance v)
    (show_star_names v) (show_galactic_plane v) (show_coordinate_grid v)
    (show_galactic_projections v) (show_multiple_star_inset v)
    (selected_star v) (paused v) (distance_lines v) (star_hop_routes v) c
    (rotation_center v) (rotation_center_star v) (screen_coords_cache v).

Definition set_screen_coords_cache (c : list (string * (R * R * R))) (v : PyGameVisualizer)
  : PyGameVisualizer :=
  mkVis (stars_df v) (width v) (height v) (camera_pos v) (zoom v)
    (rotation_x v) (rotation_y v) (rotation_z v) (glow_factor v) (max_distance v)
    (show_star_names v) (show_galactic_plane v) (show_coordinate_grid v)
    (show_galactic_projections v) (show_multiple_star_inset v)
    (selected_star v) (paused v) (distance_lines v) (star_hop_routes v) (route_cache v)
    (rotation_center v) (rotation_center_star v) c.

(** The three attributes [_center_on_star] assigns. *)
Definition set_center (c : R * R * R) (s : option Star) (cam : R * R) (v : PyGameVisualizer)
  : PyGameVisualizer :=
  mkVis (stars_df v) (width v) (height v) cam (zoom v)
    (rotation_x v) (rotation_y v) (rotation_z v) (glow_factor v) (max_distance v)
    (show_star_names v) (show_galactic_plane v) (show_coordinate_grid v)
    (show_galactic_projections v) (show_multiple_star_inset v)
    (selected_star v) (paused v) (distance_lines v) (star_hop_routes v) (route_cache v)
    c s (screen_coords_cache v).

(** ** Rotation centre *)

(** The coordinate match repeated in [_center_on_star], the planner and the
    measurement key: all three coordinates within [0.0001]. *)
Definition at_center (c : R * R * R) (star : Star) : bool :=
  let '(cx, cy, cz) := c in
  (Rabs (x star - cx) <? 0.0001) &&
  (Rabs (y star - cy) <? 0.0001) &&
  (Rabs (z star - cz) <? 0.0001).

(** [_center_on_star] *)
Definition _center_on_star (star_coords : R * R * R) (star_obj : option Star)
  (v : PyGameVisualizer) : PyGameVisualizer :=
  let found :=
    match star_obj with
    | Some s => Some s
    | None => find (at_center star_coords) (stars_df v)
    end in
  set_center star_coords found (0, 0) v.

(** ** Route planner *)

Definition max_detour_factor : R := 2.0.
Definition max_hops : nat := 10.

(** The name of the rotation-centre star as the planner resolves it: the
    direct reference when there is one, else the first row at the centre. *)
Definition center_name (v : PyGameVisualizer) : option string :=
  match rotation_center_star v with
  | Some s => Some (name s)
  | None => option_map name (find (at_center (rotation_center v)) (stars_df v))
  end.

(** [cache_key in route_cache and 'distance' in route_cache[cache_key]],
    with the value found. *)
Definition cached_distance (rc : route_cache_t) (key : list string) : option R :=
  match Dict.get list_eqb key rc with
  | Some e => ce_distance e
  | None => None
  end.

(** The direct distance, read from the cache under either key order or
    computed and stored under [(a, b)]. *)
Definition direct_distance_of (rc : route_cache_t) (a b : string) (sa sb : Star)
  : R * route_cache_t :=
  match cached_distance rc [a; b] with
  | Some d => (d, rc)
  | None =>
      match cached_distance rc [b; a] with
      | Some d => (d, rc)
      | None =>
          let d := dist sa sb in
          (d, Dict.set list_eqb [a; b] (mkEntry (Some d) None) rc)
      end
  end.

(** [candidate_stars]: the rows of the lookup cache other than the two end
    points, within the distance filter, in the cache's order. *)
Definition candidate_stars_of (cache : list (string * Star)) (rcs selected : string)
  (max_dist : R) : list Star :=
  map snd
    (filter (fun kv => negb (String.eqb (fst kv) rcs) &&
                       negb (String.eqb (fst kv) selected) &&
                       (distance_ly (snd kv) <=? max_dist))
            cache).

(** The three variables the inner [for hop_star in candidate_stars] updates. *)
Record hop_state : Type := mkHop {
  best_hop : option string;
  best_score : option R;
  found_closer_hop : bool
}.

(** Score of a hop that gets closer. *)
Definition closer_score (hop_distance to_end_distance dist_to_end : R) : R :=
  let progress_factor := (dist_to_end - to_end_distance) / dist_to_end in
  (hop_distance / 2) - (progress_factor * dist_to_end / 3).

(** Score of a hop that does not get closer. *)
Definition farther_score (hop_distance to_end_distance dist_to_end : R) : R :=
  let penalty := (to_end_distance - dist_to_end) * 2 in
  hop_distance + penalty.

(** One iteration of the inner loop.  The source also computes
    [hop_factor = 1 - min(1, hop_distance / max_hop_distance)] and never
    reads it; its divisor is at least [1.4], the loop being entered only
    from a direct distance of [2.0].  The divisor of [progress_factor] is
    [dist_to_end], positive whenever a candidate gets closer. *)
Definition consider_hop (current_star end_star : Star) (dist_to_end max_hop_distance : R)
  (visited : list string) (st : hop_state) (hop_star : Star) : hop_state :=
  if name_in (name hop_star) visited then st
  else
    let hop_distance := dist current_star hop_star in
    let to_end_distance := dist hop_star end_star in
    if (hop_distance <? 0.5) || (hop_distance >? max_hop_distance) then st
    else
      let gets_closer := to_end_distance <? dist_to_end in
      if found_closer_hop st && negb gets_closer then st
      else
        let st1 :=
          if gets_closer && negb (found_closer_hop st)
          then mkHop None None true
          else st in
        let score :=
          if gets_closer
          then closer_score hop_distance to_end_distance dist_to_end
          else farther_score hop_distance to_end_distance dist_to_end in
        if lt_best score (best_score st1)
        then mkHop (Some (name hop_star)) (Some score) (found_closer_hop st1)
        else st1.

(** The inner loop: the best next hop, if any. *)
Definition find_best_hop (current_star end_star : Star) (dist_to_end max_hop_distance : R)
  (visited : list string) (candidate_stars : list Star) : hop_state :=
  fold_left (consider_hop current_star end_star dist_to_end max_hop_distance visited)
    candidate_stars (mkHop None None false).

(** Distance travelled along [route[1:]], starting from [prev_star]. *)
Fixpoint total_distance_from (cache : list (string * Star)) (prev_star : Star)
  (names : list string) (total_distance : R) : result R :=
  match names with
  | [] => Ok total_distance
  | star_name :: rest =>
      star <- subscript cache star_name ;;
      total_distance_from cache star rest (total_distance + dist prev_star star)
  end.

(** [for _ in range(n)]: the hop loop with [n] iterations left.  Every
    [break] appends the destination and leaves the loop. *)
Fixpoint hop_loop (cache : list (string * Star)) (candidate_stars : list Star)
  (start_star end_star : Star) (selected : string)
  (direct_distance max_hop_distance : R)
  (n : nat) (route : list string) (current_star : Star) (visited : list string)
  : result (list string) :=
  match n with
  | O => Ok route
  | S n' =>
      let dist_to_end := dist current_star end_star in
      if dist_to_end <? max_hop_distance * 0.6 then Ok (route ++ [selected])
      else
        total_distance <- total_distance_from cache start_star (tl route) 0 ;;
        if total_distance >? direct_distance * max_detour_factor - dist_to_end
        then Ok (route ++ [selected])
        else
          match best_hop (find_best_hop current_star end_star dist_to_end
                            max_hop_distance visited candidate_stars) with
          | None => Ok (route ++ [selected])
          | Some hop =>
              next_star <- subscript cache hop ;;
              hop_loop cache candidate_stars start_star end_star selected
                direct_distance max_hop_distance
                n' (route ++ [hop]) next_star (hop :: visited)
          end
  end.

(** The block after the loop: make sure the end point is in the route,
    unless the last hop is within [0.05] of it.  The route is never empty
    here, so [route[-1]] is its last element. *)
Definition finish_route (cache : list (string * Star)) (selected : string)
  (route : list string) : result (list string) :=
  if String.eqb (last route "") selected then Ok route
  else
    last_star <- subscript cache (last route "") ;;
    end_star <- subscript cache selected ;;
    let final_hop_distance := dist last_star end_star in
    if final_hop_distance >=? 0.05 then Ok (route ++ [selected]) else Ok route.

(** [_calculate_star_hop_route]: the route and the route cache it leaves. *)
Definition _calculate_star_hop_route (v : PyGameVisualizer)
  : result (list string * route_cache_t) :=
  match selected_star v with
  | None => Ok ([], route_cache v)
  | Some selected =>
      match center_name v with
      | None => Ok ([], route_cache v)
      | Some rcs =>
          if String.eqb rcs selected then Ok ([], route_cache v)
          else
            let cache := star_lookup_cache v in
            start_star <- subscript cache rcs ;;
            end_star <- subscript cache selected ;;
            let '(direct_distance, rc) :=
              direct_distance_of (route_cache v) rcs selected start_star end_star in
            if direct_distance <? 2.0 then Ok ([rcs; selected], rc)
            else
              let candidate_stars :=
                candidate_stars_of cache rcs selected (max_distance v) in
              let max_hop_distance := direct_distance * 0.7 in
              route <- hop_loop cache candidate_stars start_star end_star selected
                         direct_distance max_hop_distance
                         max_hops [rcs] start_star [rcs] ;;
              route <- finish_route cache selected route ;;
              Ok (route, rc)
      end
  end.

(** ** Selection by click *)

(** The three results of the scan in [_handle_mouse_click].  The fourth
    variable of the source, [closest_coords], is always the coordinates of
    [closest_star_obj] and is read off it. *)
Record click_state : Type := mkClick {
  closest_star : option string;
  closest_distance : option R;
  closest_star_obj : option Star
}.

(** Hit radius of a star: its drawn size times the glow factor, at least 5. *)
Definition hit_size_of (v : PyGameVisualizer) (star : Star) : R :=
  let star_size := 15 - (abs_magnitude star + 5) * (13 / 20) in
  Rmax 5 (star_size * glow_factor v).

(** Distance from the click to a cached screen position ([** 0.5] on a
    sum of squares is the square root). *)
Definition click_distance (mouse_x mouse_y screen_x screen_y : R) : R :=
  sqrt ((mouse_x - screen_x) ^ 2 + (mouse_y - screen_y) ^ 2).

(** One iteration over [screen_coords_cache.items()]. *)
Definition click_step (v : PyGameVisualizer) (mouse_x mouse_y : R)
  (acc : result click_state) (item : string * (R * R * R)) : result click_state :=
  st <- acc ;;
  let '(star_name, (screen_x, screen_y, _)) := item in
  star <- subscript (star_lookup_cache v) star_name ;;
  if distance_ly star >? max_distance v then Ok st
  else
    let distance := click_distance mouse_x mouse_y screen_x screen_y in
    let hit_size := hit_size_of v star in
    if (distance <? hit_size) && lt_best distance (closest_distance st)
    then Ok (mkClick (Some star_name) (Some distance) (Some star))
    else Ok st.

(** [_handle_mouse_click]: the new state and the returned flag. *)
Definition _handle_mouse_click (v : PyGameVisualizer) (pos : R * R)
  (set_rotation_center : bool) : result (PyGameVisualizer * bool) :=
  let '(mouse_x, mouse_y) := pos in
  st <- fold_left (click_step v mouse_x mouse_y) (screen_coords_cache v)
          (Ok (mkClick None None None)) ;;
  let v1 := set_selected_star (closest_star st) v in
  match closest_star_obj st with
  | Some obj =>
      if set_rotation_center
      then Ok (_center_on_star (x obj, y obj, z obj) (Some obj) v1, true)
      else Ok (v1, false)
  | None => Ok (v1, false)
  end.

(** The cache rebuilt at the start of a frame by [_render_stars]: one
    projected position for each row that is in range or takes part in a
    measurement or a route. *)
Definition important_stars (v : PyGameVisualizer) : list string :=
  flat_map items_of (distance_lines v) ++ List.concat (star_hop_routes v).

Definition visible (v : PyGameVisualizer) (star : Star) : bool :=
  (distance_ly star <=? max_distance v) || name_in (name star) (important_stars v).

Definition _render_stars (v : PyGameVisualizer) : PyGameVisualizer :=
  set_screen_coords_cache
    (fold_left
       (fun c star =>
          Dict.set String.eqb (name star) (_world_to_screen v (x star) (y star) (z star)) c)
       (filter (visible v) (stars_df v)) [])
    v.

(** ** Measurements *)

(** [lines.remove(m)]: drop the first element equal to [m]. *)
Fixpoint remove_first (m : pyseq) (lines : list pyseq) : list pyseq :=
  match lines with
  | [] => []
  | l :: rest => if pyseq_eqb m l then rest else l :: remove_first m rest
  end.

(** [m in lines] *)
Definition pyseq_in (m : pyseq) (lines : list pyseq) : bool :=
  existsb (pyseq_eqb m) lines.

(** The name the measurement key finds for the rotation centre: the first
    row at the centre, ["Unknown"] when there is none. *)
Definition measured_center_name (v : PyGameVisualizer) : string :=
  match find (at_center (rotation_center v)) (stars_df v) with
  | Some star => name star
  | None => "Unknown"
  end.

(** The list update of the measurement key, for the pair
    [(rotation_center_name, selected)]. *)
Definition toggle_pair (rotation_center_name selected : string) (lines : list pyseq)
  : list pyseq :=
  if String.eqb selected rotation_center_name then lines
  else
    let measurement := PyTuple [rotation_center_name; selected] in
    if pyseq_in measurement lines
    then remove_first measurement lines
    else lines ++ [measurement].

(** The [K_m] branch of [handle_input]. *)
Definition toggle_measurement (v : PyGameVisualizer) : PyGameVisualizer :=
  match selected_star v with
  | Some selected =>
      if truthy (selected_star v)
      then set_distance_lines
             (toggle_pair (measured_center_name v) selected (distance_lines v)) v
      else v
  | None => v
  end.

(** ** Routes *)

(** The [K_t] branch of [handle_input] without Shift. *)
Definition add_route (v : PyGameVisualizer) : result PyGameVisualizer :=
  match selected_star v with
  | Some selected =>
      if truthy (selected_star v)
      then
        planned <- _calculate_star_hop_route v ;;
        let '(new_route, rc) := planned in
        let v1 := set_route_cache rc v in
        if (1 <=? List.length new_route)%nat
        then
          if negb (String.eqb (last new_route "") selected)
          then
            last_star <- subscript (star_lookup_cache v1) (last new_route "") ;;
            dest_star <- subscript (star_lookup_cache v1) selected ;;
            let final_distance := dist last_star dest_star in
            if final_distance <? 0.05
            then Ok (set_star_hop_routes (star_hop_routes v1 ++ [new_route]) v1)
            else Ok (set_star_hop_routes
                       (star_hop_routes v1 ++ [new_route ++ [selected]]) v1)
          else Ok (set_star_hop_routes (star_hop_routes v1 ++ [new_route]) v1)
        else Ok v1
      else Ok v
  | None => Ok v
  end.

(** ** Saved views *)

(** The dictionary [view_data]: the keys [_save_view] always writes, and
    the four it writes only when the attribute is set or non-empty.  Every
    key is optional on the reading side ([view_data.get]). *)
Record view_data : Type := mkView {
  vd_rotation_x : option R;
  vd_rotation_y : option R;
  vd_rotation_z : option R;
  vd_camera_pos : option (R * R);
  vd_zoom : option R;
  vd_max_distance : option R;
  vd_show_star_names : option bool;
  vd_show_galactic_plane : option bool;
  vd_show_coordinate_grid : option bool;
  vd_show_galactic_projections : option bool;
  vd_show_multiple_star_inset : option bool;
  vd_timestamp : option string;
  vd_rotation_center_star : option string;
  vd_selected_star : option string;
  vd_distance_lines : option (list pyseq);
  vd_star_hop_routes : option (list (list string))
}.

(** [json.load] of what [json.dump] wrote.  JSON has one array type: tuples
    and lists are both written as arrays, and every array is read back as
    a list.  Numbers, booleans and strings come back as they were. *)
Definition json_dump_load (d : view_data) : view_data :=
  mkView (vd_rotation_x d) (vd_rotation_y d) (vd_rotation_z d) (vd_camera_pos d)
    (vd_zoom d) (vd_max_distance d) (vd_show_star_names d) (vd_show_galactic_plane d)
    (vd_show_coordinate_grid d) (vd_show_galactic_projections d)
    (vd_show_multiple_star_inset d) (vd_timestamp d) (vd_rotation_center_star d)
    (vd_selected_star d)
    (option_map (map (fun s => PyList (items_of s))) (vd_distance_lines d))
    (vd_star_hop_routes d).

(** The directory [saved_views]: slot number to the content of
    [view_<slot>.json], as [json.load] returns it. *)
Definition saved_views_t : Type := list (nat * view_data).

Inductive status : Type :=
| ViewSaved (slot : nat)
| NoSavedView (slot : nat)
| ViewLoaded (slot : nat) (timestamp : option string).

Definition nonempty {A : Type} (l : list A) : option (list A) :=
  match l with
  | [] => None
  | _ => Some l
  end.

(** [_save_view]; [now] is the formatted clock reading. *)
Definition _save_view (v : PyGameVisualizer) (now : string) (slot : nat)
  (files : saved_views_t) : saved_views_t * status :=
  let data :=
    mkView (Some (rotation_x v)) (Some (rotation_y v)) (Some (rotation_z v))
      (Some (camera_pos v)) (Some (zoom v)) (Some (max_distance v))
      (Some (show_star_names v)) (Some (show_galactic_plane v))
      (Some (show_coordinate_grid v)) (Some (show_galactic_projections v))
      (Some (show_multiple_star_inset v)) (Some now)
      (option_map name (rotation_center_star v))
      (if truthy (selected_star v) then selected_star v else None)
      (nonempty (distance_lines v))
      (nonempty (star_hop_routes v)) in
  (Dict.set Nat.eqb slot (json_dump_load data) files, ViewSaved slot).

Definition get_or {A : Type} (o : option A) (default : A) : A :=
  match o with
  | Some a => a
  | None => default
  end.

(** [_load_view] *)
Definition _load_view (v : PyGameVisualizer) (slot : nat) (files : saved_views_t)
  : PyGameVisualizer * status :=
  match Dict.get Nat.eqb slot files with
  | None => (v, NoSavedView slot)
  | Some data =>
      let v1 :=
        mkVis (stars_df v) (width v) (height v)
          (get_or (vd_camera_pos data) (0, 0))
          (get_or (vd_zoom data) 40)
          (get_or (vd_rotation_x data) 0)
          (get_or (vd_rotation_y data) 0)
          (get_or (vd_rotation_z data) 0)
          (glow_factor v)
          (get_or (vd_max_distance data) 20.0)
          (get_or (vd_show_star_names data) false)
          (get_or (vd_show_galactic_plane data) false)
          (get_or (vd_show_coordinate_grid data) false)
          (get_or (vd_show_galactic_projections data) false)
          (get_or (vd_show_multiple_star_inset data) true)
          (selected_star v) (paused v) (distance_lines v) (star_hop_routes v)
          (route_cache v) (rotation_center v) (rotation_center_star v)
          (screen_coords_cache v) in
      let v2 :=
        if truthy (vd_rotation_center_star data)
        then
          match Dict.get String.eqb (get_or (vd_rotation_center_star data) "")
                  (star_lookup_cache v1) with
          | Some star => _center_on_star (x star, y star, z star) (Some star) v1
          | None => v1
          end
        else v1 in
      let v3 := set_selected_star (vd_selected_star data) v2 in
      let v4 :=
        match vd_distance_lines data with
        | Some lines => set_distance_lines lines v3
        | None => v3
        end in
      let v5 :=
        match vd_star_hop_routes data with
        | Some routes => set_star_hop_routes routes v4
        | None => v4
        end in
      (v5, ViewLoaded slot (vd_timestamp data))
  end.

(** ** Input events *)

Inductive event : Type :=
| KeyM
| KeyBackspace
| KeyT (shift : bool)
| KeyF (slot : nat) (shift : bool)
| MouseLeft (pos : R * R) (shift : bool).

(** One pass of the event loop of [handle_input] over the keys above.  The
    function keys reach the save branch whether or not Shift is held: the
    load branch comes second in the [elif] chain and tests the same keys. *)
Definition handle_event (now : string) (st : PyGameVisualizer * saved_views_t) (e : event)
  : result (PyGameVisualizer * saved_views_t) :=
  let '(v, files) := st in
  match e with
  | KeyM => Ok (toggle_measurement v, files)
  | KeyBackspace => Ok (set_distance_lines [] v, files)
  | KeyT true => Ok (set_star_hop_routes [] v, files)
  | KeyT false => v' <- add_route v ;; Ok (v', files)
  | KeyF slot _ => Ok (v, fst (_save_view v now slot files))
  | MouseLeft pos shift =>
      r <- _handle_mouse_click v pos shift ;; Ok (fst r, files)
  end.

(** ** A hop-selection round, in the words of its description *)

Section Round.
Variables current_star end_star : Star.
Variables dist_to_end max_hop_distance : R.
Variable visited : list string.

(** A candidate survives the filters of the round: not visited, and the hop
    neither shorter than [0.5] nor longer than [max_hop_distance]. *)
Definition eligible (c : Star) : bool :=
  negb (name_in (name c) visited) &&
  negb ((dist current_star c <? 0.5) || (dist current_star c >? max_hop_distance)).

(** A candidate gets closer to the destination. *)
Definition improving (c : Star) : bool :=
  dist c end_star <? dist_to_end.

(** The score of a candidate, by its side of the partition. *)
Definition hop_score (c : Star) : R :=
  if improving c
  then closer_score (dist current_star c) (dist c end_star) dist_to_end
  else farther_score (dist current_star c) (dist c end_star) dist_to_end.

(** The candidates that compete: the improving ones when there is one,
    all the surviving ones otherwise; in catalog order. *)
Definition competing (cands : list Star) : list Star :=
  if existsb (fun c => eligible c && improving c) cands
  then filter (fun c => eligible c && improving c) cands
  else filter eligible cands.

(** [c] is the first candidate of lowest score in [pool]. *)
Definition first_lowest (pool : list Star) (c : Star) : Prop :=
  exists pre post,
    pool = pre ++ c :: post /\
    (forall c', In c' pre -> hop_score c < hop_score c') /\
    (forall c', In c' post -> hop_score c <= hop_score c').

(** What [best_hop] and [best_score] hold once the competing candidates
    are [pool]: nothing when it is empty, else its first lowest score. *)
Definition best_is (pool : list Star) (bh : option string) (bs : option R) : Prop :=
  match bh, bs with
  | None, None => pool = []
  | Some h, Some sc =>
      exists c, name c = h /\ sc = hop_score c /\ first_lowest pool c
  | _, _ => False
  end.

(** What the three loop variables hold after the candidates [seen]. *)
Definition round_inv (seen : list Star) (st : hop_state) : Prop :=
  found_closer_hop st = existsb (fun c => eligible c && improving c) seen /\
  best_is (competing seen) (best_hop st) (best_score st).

End Round.

(** The lookup cache as [__init__] fills it: no key twice, and every row
    stored under its own name. *)
Definition cache_inv (d : list (string * Star)) : Prop :=
  NoDup (map fst d) /\
  (forall k s, In (k, s) d -> name s = k).

(** ** Invariants of the planning loop *)

(** What holds of the route while the loop runs: it is not empty, has no
    repeated name, does not hold the destination, and its names are
    visited and are names of the lookup cache. *)
Definition route_growing (cache : list (string * Star)) (selected : string)
  (route visited : list string) : Prop :=
  route <> [] /\ NoDup route /\ ~ In selected route /\
  (forall nm, In nm route -> In nm visited) /\
  (forall nm, In nm route -> exists s, Dict.get String.eqb nm cache = Some s).

(** What holds of the route [r] the loop leaves after at most [n]
    iterations from [route0]. *)
Definition route_left (cache : list (string * Star)) (selected : string)
  (route0 r : list string) (n : nat) : Prop :=
  (exists more, r = route0 ++ more) /\
  (List.length route0 <= List.length r <= List.length route0 + n)%nat /\
  (n <> O -> List.length route0 + 1 <= List.length r)%nat /\
  NoDup r /\
  (last r "" = selected \/
   (~ In selected r /\
    forall nm, In nm r -> exists s, Dict.get String.eqb nm cache = Some s)).

(** The ['distance'] entries of the route cache agree with the catalog:
    what every writer of such an entry stores is the distance between the
    two stars its key names. *)
Definition cache_consistent (v : PyGameVisualizer) : Prop :=
  forall a b d sa sb,
    cached_distance (route_cache v) [a; b] = Some d ->
    Dict.get String.eqb a (star_lookup_cache v) = Some sa ->
    Dict.get String.eqb b (star_lookup_cache v) = Some sb ->
    d = dist sa sb.

(** ** Invariant of the click scan *)

(** What the scan of [_handle_mouse_click] holds after the cache items
    [seen]: nothing while no in-range star was hit, else the name, click
    distance and row of a hit star no other hit star is nearer than. *)
Definition click_inv (v : PyGameVisualizer) (mouse_x mouse_y : R)
  (seen : list (string * (R * R * R))) (st : click_state) : Prop :=
  match closest_star st, closest_distance st, closest_star_obj st with
  | None, None, None =>
      forall nm sx sy sf star,
        In (nm, (sx, sy, sf)) seen ->
        Dict.get String.eqb nm (star_lookup_cache v) = Some star ->
        distance_ly star <= max_distance v ->
        hit_size_of v star <= click_distance mouse_x mouse_y sx sy
  | Some nm, Some d, Some star =>
      (exists sx sy sf,
         In (nm, (sx, sy, sf)) seen /\ d = click_distance mouse_x mouse_y sx sy) /\
      Dict.get String.eqb nm (star_lookup_cache v) = Some star /\
      distance_ly star <= max_distance v /\
      d < hit_size_of v star /\
      (forall nm' sx sy sf star',
         In (nm', (sx, sy, sf)) seen ->
         Dict.get String.eqb nm' (star_lookup_cache v) = Some star' ->
         distance_ly star' <= max_distance v ->
         click_distance mouse_x mouse_y sx sy < hit_size_of v star' ->
         d <= click_distance mouse_x mouse_y sx sy)
  | _, _, _ => False
  end.

(** ** Keys and wheel of [handle_input] *)

Definition set_zoom (zm : R) (v : PyGameVisualizer) : PyGameVisualizer :=
  mkVis (stars_df v) (width v) (height v) (camera_pos v) zm
    (rotation_x v) (rotation_y v) (rotation_z v) (glow_factor v) (max_distance v)
    (show_star_names v) (show_galactic_plane v) (show_coordinate_grid v)
    (show_galactic_projections v) (show_multiple_star_inset v)
    (selected_star v) (paused v) (distance_lines v) (star_hop_routes v) (route_cache v)
    (rotation_center v) (rotation_center_star v) (screen_coords_cache v).

Definition set_max_distance (d : R) (v : PyGameVisualizer) : PyGameVisualizer :=
  mkVis (stars_df v) (width v) (height v) (camera_pos v) (zoom v)
    (rotation_x v) (rotation_y v) (rotation_z v) (glow_factor v) d
    (show_star_names v) (show_galactic_plane v) (show_coordinate_grid v)
    (show_galactic_projections v) (show_multiple_star_inset v)
    (selected_star v) (paused v) (distance_lines v) (star_hop_routes v) (route_cache v)
    (rotation_center v) (rotation_center_star v) (screen_coords_cache v).

(** The [K_EQUALS]/[K_PLUS] and [K_MINUS] branches. *)
Definition increase_max_distance (v : PyGameVisualizer) : PyGameVisualizer :=
  set_max_distance (Rmin 20.0 (max_distance v + 1.0)) v.

Definition decrease_max_distance (v : PyGameVisualizer) : PyGameVisualizer :=
  set_max_distance (Rmax 3.0 (max_distance v - 1.0)) v.

(** [stars_df[stars_df['name'] == nm]] followed by [.iloc[0]]: the first
    row of that name, when the selection is not empty. *)
Definition first_row_named (rows : list Star) (nm : string) : option Star :=
  find (fun s => String.eqb (name s) nm) rows.

(** The body shared by the [K_c] branch and the wheel branch: centre on
    the coordinates of the selected star, without a direct reference. *)
Definition center_on_selected (v : PyGameVisualizer) : PyGameVisualizer :=
  match selected_star v with
  | Some nm =>
      match first_row_named (stars_df v) nm with
      | Some star => _center_on_star (x star, y star, z star) None v
      | None => v
      end
  | None => v
  end.

(** The [K_c] branch. *)
Definition key_c (v : PyGameVisualizer) : PyGameVisualizer :=
  if truthy (selected_star v) then center_on_selected v else v.

(** The wheel branches of [MOUSEBUTTONDOWN]: buttons 4 (up) and 5 (down). *)
Definition mouse_wheel (button : nat) (v : PyGameVisualizer) : PyGameVisualizer :=
  if ((button =? 4)%nat || (button =? 5)%nat) && truthy (selected_star v)
  then
    let v1 := center_on_selected v in
    if (button =? 4)%nat then set_zoom (Rmin 400 (zoom v1 * 1.1)) v1
    else if (button =? 5)%nat then set_zoom (Rmax 5 (zoom v1 / 1.1)) v1
    else v1
  else if (button =? 4)%nat then set_zoom (Rmin 400 (zoom v * 1.1)) v
  else if (button =? 5)%nat then set_zoom (Rmax 5 (zoom v / 1.1)) v
  else v.


(** ** Route metrics of the legend *)

(** The three outcomes of a route in the legend loop of
    [_draw_star_hop_routes]: skipped (fewer than two names), a line
    without figures (the [except (IndexError, KeyError)] branch), a line
    with total hop distance, direct distance and efficiency. *)
Inductive legend_summary : Type :=
| NoSummary
| PlainSummary
| Metrics (total_hop_distance direct_distance efficiency : R).

(** [for j in range(len(route) - 1)]: the hop distances added up, rows
    taken from [stars_df] by name; [None] when a name has no row
    ([IndexError] at [.iloc[0]]). *)
Fixpoint total_hop_distance_from (rows : list Star) (route : list string) (total : R)
  : option R :=
  match route with
  | [] => Some total
  | a :: rest =>
      match rest with
      | [] => Some total
      | b :: _ =>
          match first_row_named rows a, first_row_named rows b with
          | Some from_star, Some to_star =>
              total_hop_distance_from rows rest (total + dist from_star to_star)
          | _, _ => None
          end
      end
  end.

(** One route of the legend: its summary and the route cache left. *)
Definition route_legend (v : PyGameVisualizer) (route : list string)
  : legend_summary * route_cache_t :=
  if (List.length route <? 2)%nat then (NoSummary, route_cache v)
  else
    match Dict.get list_eqb route (route_cache v) with
    | Some cached_data =>
        match ce_metrics cached_data with
        | Some (total, direct, efficiency) =>
            (Metrics total direct efficiency, route_cache v)
        | None => (PlainSummary, route_cache v)
        end
    | None =>
        match first_row_named (stars_df v) (hd "" route),
              first_row_named (stars_df v) (last route "") with
        | Some start_star, Some end_star =>
            let direct := dist start_star end_star in
            match total_hop_distance_from (stars_df v) route 0 with
            | Some total =>
                let efficiency :=
                  if total >? 0 then direct / total * 100 else 100 in
                (Metrics total direct efficiency,
                 Dict.set list_eqb route
                   (mkEntry None (Some (total, direct, efficiency))) (route_cache v))
            | None => (PlainSummary, route_cache v)
            end
        | _, _ => (PlainSummary, route_cache v)
        end
    end.

(** ** Colours ([data_loader.b_v_to_rgb], [_hex_to_rgb]) *)

(** The lowercase hexadecimal digit of a value below 16. *)
Definition hex_char (d : N) : ascii :=
  match d with
  | 0%N => "0" | 1%N => "1" | 2%N => "2" | 3%N => "3"
  | 4%N => "4" | 5%N => "5" | 6%N => "6" | 7%N => "7"
  | 8%N => "8" | 9%N => "9" | 10%N => "a" | 11%N => "b"
  | 12%N => "c" | 13%N => "d" | 14%N => "e" | _ => "f"
  end%char.

Fixpoint hex_string_from (fuel : nat) (n : N) (acc : string) : string :=
  match fuel with
  | O => acc
  | S fuel' =>
      let acc' := String (hex_char (n mod 16)) acc in
      if (n <? 16)%N then acc' else hex_string_from fuel' (n / 16) acc'
  end.

(** [format(n, 'x')] for a non-negative integer: its hexadecimal digits. *)
Definition format_x (n : N) : string :=
  hex_string_from (S (N.size_nat n)) n "".

(** [f'{n:02x}']: the digits, padded with a zero to two characters. *)
Definition format_02x (n : N) : string :=
  let digits := format_x n in
  if (String.length digits <? 2)%nat then String "0"%char digits else digits.

(** [f'#{int(r):02x}{int(g):02x}{int(b):02x}'] *)
Definition hex_color (r g b : N) : string :=
  String "#"%char (format_02x r ++ format_02x g ++ format_02x b)%string.

(** The white space [int] strips from an ASCII string: tab, line feed,
    vertical tab, form feed, carriage return and space. *)
Definition is_space (c : ascii) : bool :=
  let n := nat_of_ascii c in
  ((9 <=? n) && (n <=? 13) || (n =? 32))%nat.

Fixpoint lstrip_space (s : string) : string :=
  match s with
  | String c rest => if is_space c then lstrip_space rest else s
  | EmptyString => EmptyString
  end.

Definition string_rev (s : string) : string :=
  string_of_list_ascii (rev (list_ascii_of_string s)).

Definition strip_space (s : string) : string :=
  string_rev (lstrip_space (string_rev (lstrip_space s))).

Definition hex_value (c : ascii) : option Z :=
  let n := nat_of_ascii c in
  if ((48 <=? n) && (n <=? 57))%nat then Some (Z.of_nat (n - 48))
  else if ((97 <=? n) && (n <=? 102))%nat then Some (Z.of_nat (n - 87))
  else if ((65 <=? n) && (n <=? 70))%nat then Some (Z.of_nat (n - 55))
  else None.

(** Hexadecimal digits with single underscores between them;
    [after_digit] tells whether an underscore may come next. *)
Fixpoint hex_digits (acc : Z) (after_digit : bool) (s : string) : option Z :=
  match s with
  | EmptyString => if after_digit then Some acc else None
  | String c rest =>
      if Ascii.eqb c "_"
      then if after_digit then hex_digits acc false rest else None
      else
        match hex_value c with
        | Some d => hex_digits (16 * acc + d)%Z true rest
        | None => None
        end
  end.

(** Unsigned part: an optional [0x]/[0X] prefix, after which one
    underscore may come first, then the digits. *)
Definition hex_unsigned (s : string) : option Z :=
  match s with
  | String "0" (String c rest) =>
      if Ascii.eqb c "x" || Ascii.eqb c "X"
      then match rest with
           | EmptyString => None
           | _ => hex_digits 0 true rest
           end
      else hex_digits 0 false s
  | _ => hex_digits 0 false s
  end.

(** [int(s, 16)] on a string of ASCII characters; [None] is [ValueError]. *)
Definition int16 (s : string) : option Z :=
  match strip_space s with
  | String "+" rest => hex_unsigned rest
  | String "-" rest => option_map Z.opp (hex_unsigned rest)
  | t => hex_unsigned t
  end.

(** [s.lstrip('#')] *)
Fixpoint lstrip_hash (s : string) : string :=
  match s with
  | String c rest => if Ascii.eqb c "#" then lstrip_hash rest else s
  | EmptyString => EmptyString
  end.

(** [_hex_to_rgb]: the three slices [h[0:2]], [h[2:4]], [h[4:6]] read in
    base 16; [None] when one of them raises [ValueError]. *)
Definition _hex_to_rgb (hex_color : string) : option (Z * Z * Z) :=
  let h := lstrip_hash hex_color in
  match int16 (substring 0 2 h) with
  | None => None
  | Some r =>
      match int16 (substring 2 2 h) with
      | None => None
      | Some g =>
          match int16 (substring 4 2 h) with
          | None => None
          | Some b => Some (r, g, b)
          end
      end
  end.

(** The argument of [b_v_to_rgb]: a tag string or a number. *)
Inductive b_v_value : Type :=
| BVStr (s : string)
| BVNum (r : R).

(** ['white_dwarf' in b_v] *)
Definition contains (needle hay : string) : bool :=
  match String.index 0 needle hay with
  | Some _ => true
  | None => false
  end.

(** The ladder of thresholds of [b_v_to_rgb], from blue to dark red. *)
Definition b_v_rgb (b_v : R) : N * N * N :=
  if b_v <? -0.1 then (40%N, 100%N, 255%N)
   else if b_v <? 0.0 then (80%N, 140%N, 255%N)
   else if b_v <? 0.1 then (130%N, 180%N, 255%N)
   else if b_v <? 0.2 then (180%N, 210%N, 255%N)
   else if b_v <? 0.3 then (225%N, 235%N, 255%N)
   else if b_v <? 0.4 then (250%N, 250%N, 250%N)
   else if b_v <? 0.5 then (255%N, 250%N, 225%N)
   else if b_v <? 0.6 then (255%N, 245%N, 180%N)
   else if b_v <? 0.7 then (255%N, 240%N, 140%N)
   else if b_v <? 0.8 then (255%N, 220%N, 100%N)
   else if b_v <? 0.9 then (255%N, 200%N, 80%N)
   else if b_v <? 1.0 then (255%N, 180%N, 60%N)
   else if b_v <? 1.1 then (255%N, 160%N, 45%N)
   else if b_v <? 1.2 then (255%N, 140%N, 40%N)
   else if b_v <? 1.3 then (255%N, 120%N, 35%N)
   else if b_v <? 1.4 then (255%N, 100%N, 30%N)
   else if b_v <? 1.5 then (255%N, 80%N, 25%N)
   else if b_v <? 1.6 then (255%N, 60%N, 20%N)
   else if b_v <? 1.8 then (240%N, 40%N, 15%N)
   else if b_v <? 2.0 then (220%N, 30%N, 10%N)
   else (200%N, 20%N, 5%N).

(** [b_v_to_rgb]; [None] is the [TypeError] of comparing a string that is
    neither tag with a number. *)
Definition b_v_to_rgb (b_v : b_v_value) : option string :=
  match b_v with
  | BVStr s =>
      if String.eqb s "SIRIUS_BLUE" then Some (hex_color 30 100 255)
      else if contains "white_dwarf" s then Some (hex_color 180 200 255)
      else None
  | BVNum r =>
      let b_v := Rmax (-0.4) (Rmin 2.0 r) in
      let '(r, g, b) := b_v_rgb b_v in
      Some (hex_color r g b)
  end.

(** ** A small catalog for the scenarios *)

Definition sample_sun : Star := mkStar "Sun" 0 0 0 0 4.83.
Definition sample_alpha : Star := mkStar "Alpha" 3 0 0 3 4.38.
Definition sample_beta : Star := mkStar "Beta" 1.5 1 0 1.8 5.

(** A frame in which the Sun is selected and drawn at the centre of the
    window. *)
Definition sample_frame : PyGameVisualizer :=
  set_screen_coords_cache [("Sun", (512, 384, 1))]
    (set_selected_star (Some "Sun") (init [sample_sun])).

(** The three sample stars, the Sun as rotation centre, Alpha selected. *)
Definition sample_trip : PyGameVisualizer :=
  set_selected_star (Some "Alpha")
    (_center_on_star (0, 0, 0) (Some sample_sun)
       (init [sample_sun; sample_alpha; sample_beta])).

(** The Sun both rotation centre and selected star. *)
Definition sample_at_sun : PyGameVisualizer :=
  set_selected_star (Some "Sun")
    (_center_on_star (0, 0, 0) (Some sample_sun)
       (init [sample_sun; sample_alpha; sample_beta])).

(** A selected name that no row of the catalog carries. *)
Definition sample_stale : PyGameVisualizer :=
  set_selected_star (Some "Ghost")
    (_center_on_star (0, 0, 0) (Some sample_sun)
       (init [sample_sun; sample_alpha; sample_beta])).

(** The Sun as rotation centre, Beta selected: a short trip. *)
Definition sample_short : PyGameVisualizer :=
  set_selected_star (Some "Beta")
    (_center_on_star (0, 0, 0) (Some sample_sun)
       (init [sample_sun; sample_alpha; sample_beta])).

(** One measurement and one route on display. *)
Definition sample_session : PyGameVisualizer :=
  set_star_hop_routes [["Sun"; "Alpha"]]
    (set_distance_lines [PyTuple ["Sun"; "Alpha"]] sample_trip).

(** A session over a larger catalog, in which a star named Ghost is
    selected; and the file its slot 1 holds once saved. *)
Definition sample_ghost : Star := mkStar "Ghost" 5 5 5 8.66 9.

Definition sample_other_session : PyGameVisualizer :=
  set_selected_star (Some "Ghost") (init [sample_sun; sample_ghost]).

Definition sample_old_files : saved_views_t :=
  fst (_save_view sample_other_session "2024-01-01 00:00:00" 1 []).

(** The session that results from loading that file over the three
    sample stars. *)
Definition sample_reloaded : PyGameVisualizer :=
  fst (_load_view (init [sample_sun; sample_alpha; sample_beta]) 1 sample_old_files).

(** The sample session saved to slot 1 and loaded back at once. *)
Definition sample_session_reloaded : PyGameVisualizer :=
  fst (_load_view sample_session 1
         (fst (_save_view sample_session "2024-01-01 00:00:00" 1 []))).

(** * Properties *)

Lemma Rltb_true (a b : R) : (a <? b) = true <-> a < b.
Proof. unfold Rltb. destruct (Rlt_dec a b); split; intros; try discriminate; tauto. Qed.

Lemma Rltb_false (a b : R) : (a <? b) = false <-> b <= a.
Proof.
unfold Rltb. destruct (Rlt_dec a b); split; intros; try discriminate; try lra; reflexivity.
Qed.

Lemma Rleb_true (a b : R) : (a <=? b) = true <-> a <= b.
Proof. unfold Rleb. destruct (Rle_dec a b); split; intros; try discriminate; tauto. Qed.

Lemma Rleb_false (a b : R) : (a <=? b) = false <-> b < a.
Proof.
unfold Rleb. destruct (Rle_dec a b); split; intros; try discriminate; try lra; reflexivity.
Qed.


Lemma lt_best_true (s : R) (best : option R) :
  lt_best s best = true <-> (forall b, best = Some b -> s < b).
Proof.
destruct best as [b|]; simpl.
- rewrite Rltb_true. split.
  + intros H b' Hb. injection Hb as <-. exact H.
  + intros H. apply H. reflexivity.
- split; [intros _ b Hb; discriminate | reflexivity].
Qed.

(** ** Distance *)

Lemma dist_nonneg (a b : Star) : 0 <= dist a b.
Proof. unfold dist, _calculate_distance. apply sqrt_pos. Qed.

Lemma dist_sym (a b : Star) : dist a b = dist b a.
Proof. unfold dist, _calculate_distance. f_equal. ring. Qed.

Lemma dist_self (a : Star) : dist a a = 0.
Proof.
unfold dist, _calculate_distance.
replace ((x a - x a) ^ 2 + (y a - y a) ^ 2 + (z a - z a) ^ 2) with 0 by ring.
apply sqrt_0.
Qed.

(** C6.  The distance operation is symmetric, is 0 on twice the same
    entry, and is 0 as soon as one argument is [None]; being a total
    function into the reals it has no raising path. *)
Theorem calculate_distance_symmetric_and_zero :
  (forall a b : option Star, _calculate_distance a b = _calculate_distance b a) /\
  (forall a : option Star, _calculate_distance a a = 0) /\
  (forall a : option Star,
     _calculate_distance None a = 0 /\ _calculate_distance a None = 0).
Proof.
split; [|split].
- intros [a|] [b|]; try reflexivity. apply dist_sym.
- intros [a|]; [apply dist_self | reflexivity].
- intros [a|]; split; reflexivity.
Qed.

(** ** Projection *)

(** C5.  Under the identity camera (the three angles zero, pivot at the
    origin, no pan) a position [P] lands on
    [(width/2 + P.x*zoom, height/2 - P.y*zoom)] with size factor
    [1 + P.z*0.1]. *)
Theorem world_to_screen_identity_camera (v : PyGameVisualizer) (px py pz : R) :
  rotation_x v = 0 -> rotation_y v = 0 -> rotation_z v = 0 ->
  rotation_center v = (0, 0, 0) ->
  camera_pos v = (0, 0) ->
  _world_to_screen v px py pz =
    (width v / 2 + px * zoom v, height v / 2 - py * zoom v, 1 + pz * 0.1).
Proof.
intros Hx Hy Hz Hc Hp.
unfold _world_to_screen.
rewrite Hx, Hy, Hz, Hc, Hp. simpl fst. simpl snd.
rewrite cos_0, sin_0.
apply f_equal2; [apply f_equal2|]; lra.
Qed.

Lemma world_to_screen_identity_camera_witness :
  _world_to_screen (init [sample_sun]) 1 2 3 =
    (width (init [sample_sun]) / 2 + 1 * zoom (init [sample_sun]),
     height (init [sample_sun]) / 2 - 2 * zoom (init [sample_sun]),
     1 + 3 * 0.1).
Proof.
apply (world_to_screen_identity_camera (init [sample_sun]) 1 2 3); reflexivity.
Defined.

(** ** Dictionaries *)

Section DictFacts.
Context {K V : Type}.
Variable eqb : K -> K -> bool.
Hypothesis eqb_eq : forall a b, eqb a b = true <-> a = b.

Lemma eqb_refl_ (k : K) : eqb k k = true.
Proof. apply eqb_eq. reflexivity. Qed.

Lemma eqb_neq_ (a b : K) : a <> b -> eqb a b = false.
Proof.
intros H. destruct (eqb a b) eqn:E; [|reflexivity].
exfalso. apply H. apply eqb_eq. exact E.
Qed.

Lemma get_set_same (k : K) (v : V) (d : list (K * V)) :
  Dict.get eqb k (Dict.set eqb k v d) = Some v.
Proof.
induction d as [|[k' v'] d IH]; simpl.
- rewrite eqb_refl_. reflexivity.
- destruct (eqb k k') eqn:E; simpl; rewrite E; [reflexivity | exact IH].
Qed.

Lemma get_set_other (k k0 : K) (v0 : V) (d : list (K * V)) :
  k <> k0 -> Dict.get eqb k (Dict.set eqb k0 v0 d) = Dict.get eqb k d.
Proof.
intros Hne. induction d as [|[k' v'] d IH]; simpl.
- rewrite (eqb_neq_ _ _ Hne). reflexivity.
- destruct (eqb k0 k') eqn:E; simpl.
  + apply eqb_eq in E. subst k'. rewrite (eqb_neq_ _ _ Hne). reflexivity.
  + destruct (eqb k k'); [reflexivity | exact IH].
Qed.

Lemma in_set (k k0 : K) (v v0 : V) (d : list (K * V)) :
  In (k, v) (Dict.set eqb k0 v0 d) -> (k = k0 /\ v = v0) \/ In (k, v) d.
Proof.
induction d as [|[k' v'] d IH]; simpl.
- intros [H|[]]. injection H as <- <-. left. split; reflexivity.
- destruct (eqb k0 k') eqn:E; simpl.
  + apply eqb_eq in E. subst k'. intros [H|H].
    * injection H as <- <-. left. split; reflexivity.
    * right. right. exact H.
  + intros [H|H].
    * right. left. exact H.
    * destruct (IH H) as [H'|H']; [left; exact H' | right; right; exact H'].
Qed.

Lemma set_keys (k0 : K) (v0 : V) (d : list (K * V)) (k : K) :
  In k (map fst (Dict.set eqb k0 v0 d)) <-> k = k0 \/ In k (map fst d).
Proof.
induction d as [|[k' v'] d IH]; simpl.
- split; intros [H|H]; auto; contradiction.
- destruct (eqb k0 k') eqn:E; simpl.
  + apply eqb_eq in E. subst k'. split; intros H; [right; exact H|].
    destruct H as [H|H]; [left; symmetry; exact H | exact H].
  + rewrite IH. tauto.
Qed.

Lemma set_keys_nodup (k0 : K) (v0 : V) (d : list (K * V)) :
  NoDup (map fst d) -> NoDup (map fst (Dict.set eqb k0 v0 d)).
Proof.
induction d as [|[k' v'] d IH]; simpl; intros Hnd.
- constructor; [intros [] | constructor].
- inversion Hnd as [|? ? Hnotin Hnd']; subst.
  destruct (eqb k0 k') eqn:E; simpl.
  + constructor; assumption.
  + constructor; [|apply IH; exact Hnd'].
    rewrite set_keys. intros [H|H]; [|contradiction].
    subst k'. rewrite eqb_refl_ in E. discriminate.
Qed.

Lemma get_in (k : K) (v : V) (d : list (K * V)) :
  Dict.get eqb k d = Some v -> In (k, v) d.
Proof.
induction d as [|[k' v'] d IH]; simpl; [discriminate|].
destruct (eqb k k') eqn:E.
- apply eqb_eq in E. subst k'. intros H. injection H as <-. left. reflexivity.
- intros H. right. apply IH. exact H.
Qed.

Lemma in_get (k : K) (v : V) (d : list (K * V)) :
  In (k, v) d -> exists v', Dict.get eqb k d = Some v'.
Proof.
induction d as [|[k' v'] d IH]; simpl; [intros []|].
intros [H|H].
- injection H as -> ->. rewrite eqb_refl_. eexists. reflexivity.
- destruct (eqb k k'); [eexists; reflexivity | apply IH; exact H].
Qed.

Lemma in_get_nodup (k : K) (v : V) (d : list (K * V)) :
  NoDup (map fst d) -> In (k, v) d -> Dict.get eqb k d = Some v.
Proof.
induction d as [|[k' v'] d IH]; simpl; [intros _ []|].
intros Hnd [H|H]; inversion Hnd as [|? ? Hnotin Hnd']; subst.
- injection H as -> ->. rewrite eqb_refl_. reflexivity.
- destruct (eqb k k') eqn:E.
  + apply eqb_eq in E. subst k'. exfalso. apply Hnotin.
    apply (in_map fst) in H. exact H.
  + apply IH; assumption.
Qed.

End DictFacts.

(** ** The lookup cache *)

Lemma cache_inv_fold (rows : list Star) (d : list (string * Star)) :
  cache_inv d ->
  cache_inv
    (fold_left (fun d star => Dict.set String.eqb (name star) star d) rows d).
Proof.
revert d. induction rows as [|r rows IH]; intros d Hd; simpl; [exact Hd|].
assert (Hstep : cache_inv (Dict.set String.eqb (name r) r d)).
{ destruct Hd as [Hnd Hname]. split.
  - apply set_keys_nodup; [apply String.eqb_eq | exact Hnd].
  - intros k s Hin. apply (in_set String.eqb String.eqb_eq) in Hin.
    destruct Hin as [[-> ->]|Hin]; [reflexivity | apply Hname; exact Hin]. }
specialize (IH _ Hstep). destruct IH as [H1 H2]. split; assumption.
Qed.

Lemma lookup_cache_keys_nodup (rows : list Star) :
  NoDup (map fst (build_lookup_cache rows)).
Proof.
unfold build_lookup_cache.
apply (cache_inv_fold rows []). split; [constructor | intros k s []].
Qed.

Lemma lookup_cache_key_is_name (rows : list Star) (k : string) (s : Star) :
  In (k, s) (build_lookup_cache rows) -> name s = k.
Proof.
unfold build_lookup_cache.
apply (cache_inv_fold rows []). split; [constructor | intros k' s' []].
Qed.

Lemma fold_set_keeps_key (rows : list Star) (d : list (string * Star)) (k : string) :
  In k (map fst d) ->
  In k (map fst (fold_left (fun d star => Dict.set String.eqb (name star) star d) rows d)).
Proof.
revert d. induction rows as [|r rows IH]; intros d Hk; simpl; [exact Hk|].
apply IH. apply (set_keys String.eqb String.eqb_eq). right. exact Hk.
Qed.

Lemma row_name_in_lookup_cache (rows : list Star) (s : Star) :
  In s rows -> In (name s) (map fst (build_lookup_cache rows)).
Proof.
unfold build_lookup_cache. generalize (@nil (string * Star)).
induction rows as [|r rows IH]; intros d; simpl; [intros []|].
intros [->|Hin].
- apply fold_set_keeps_key. apply (set_keys String.eqb String.eqb_eq). left. reflexivity.
- apply IH. exact Hin.
Qed.

Lemma key_in_get {V : Type} (k : string) (d : list (string * V)) :
  In k (map fst d) -> exists v, Dict.get String.eqb k d = Some v.
Proof.
intros H. apply in_map_iff in H. destruct H as [[k' v] [Hk Hin]].
simpl in Hk. subst k'. apply (in_get String.eqb String.eqb_eq) in Hin. exact Hin.
Qed.

(** ** Measurements *)

Lemma list_eqb_eq (a b : list string) : list_eqb a b = true <-> a = b.
Proof.
unfold list_eqb. destruct (list_eq_dec string_dec a b); split; intros;
  try discriminate; tauto.
Qed.

Lemma pyseq_eqb_eq (a b : pyseq) : pyseq_eqb a b = true <-> a = b.
Proof.
destruct a as [l|l], b as [r|r]; simpl; try rewrite list_eqb_eq;
  split; intros H; try discriminate; try (injection H as ->); try (subst; reflexivity).
Qed.

Lemma pyseq_eqb_refl (a : pyseq) : pyseq_eqb a a = true.
Proof. apply pyseq_eqb_eq. reflexivity. Qed.

Lemma pyseq_in_app (m : pyseq) (l r : list pyseq) :
  pyseq_in m (l ++ r) = pyseq_in m l || pyseq_in m r.
Proof. unfold pyseq_in. apply existsb_app. Qed.

Lemma pyseq_in_appended (m : pyseq) (lines : list pyseq) :
  pyseq_in m (lines ++ [m]) = true.
Proof.
rewrite pyseq_in_app. unfold pyseq_in at 2. cbn [existsb].
rewrite pyseq_eqb_refl. apply orb_true_iff. right. reflexivity.
Qed.

Lemma remove_first_appended (m : pyseq) (lines : list pyseq) :
  pyseq_in m lines = false -> remove_first m (lines ++ [m]) = lines.
Proof.
induction lines as [|l lines IH]; simpl.
- intros _. rewrite pyseq_eqb_refl. reflexivity.
- intros H. apply orb_false_iff in H. destruct H as [H1 H2].
  rewrite H1. f_equal. apply IH. exact H2.
Qed.

(** C7, as the code has it.  One toggle removes the first occurrence of
    the exact ordered pair when it is present and appends it otherwise.
    Two toggles give back the original list when the pair was absent; when
    it was present once, they leave it moved to the end of the list. *)
Theorem toggle_pair_once_and_twice (lines : list pyseq) (pivot selected : string) :
  pivot <> selected ->
  toggle_pair pivot selected lines =
    (if pyseq_in (PyTuple [pivot; selected]) lines
     then remove_first (PyTuple [pivot; selected]) lines
     else lines ++ [PyTuple [pivot; selected]]) /\
  (pyseq_in (PyTuple [pivot; selected]) lines = false ->
   toggle_pair pivot selected (toggle_pair pivot selected lines) = lines) /\
  (pyseq_in (PyTuple [pivot; selected]) lines = true ->
   pyseq_in (PyTuple [pivot; selected])
     (remove_first (PyTuple [pivot; selected]) lines) = false ->
   toggle_pair pivot selected (toggle_pair pivot selected lines) =
     remove_first (PyTuple [pivot; selected]) lines ++ [PyTuple [pivot; selected]]).
Proof.
intros Hne.
assert (E : String.eqb selected pivot = false).
{ apply String.eqb_neq. intros H. apply Hne. symmetry. exact H. }
unfold toggle_pair. rewrite E.
split; [reflexivity|]. split.
- intros Habs. rewrite Habs, pyseq_in_appended.
  apply remove_first_appended. exact Habs.
- intros Hin Hout. rewrite Hin, Hout. reflexivity.
Qed.

Lemma toggle_pair_once_and_twice_witness :
  toggle_pair "Sun" "Alpha" [PyTuple ["Sun"; "Beta"]] =
    [PyTuple ["Sun"; "Beta"]; PyTuple ["Sun"; "Alpha"]] /\
  toggle_pair "Sun" "Alpha" (toggle_pair "Sun" "Alpha" [PyTuple ["Sun"; "Beta"]]) =
    [PyTuple ["Sun"; "Beta"]].
Proof.
assert (Hne : "Sun" <> "Alpha") by discriminate.
destruct (toggle_pair_once_and_twice [PyTuple ["Sun"; "Beta"]] "Sun" "Alpha" Hne)
  as [H1 [H2 _]].
split; [exact H1 | apply H2; reflexivity].
Defined.

(** C7 as stated fails: with the pair present and not last, two toggles
    change the order of the list. *)
Lemma toggle_twice_reorders :
  toggle_pair "Sun" "Alpha"
    (toggle_pair "Sun" "Alpha" [PyTuple ["Sun"; "Alpha"]; PyTuple ["Sun"; "Beta"]])
  <> [PyTuple ["Sun"; "Alpha"]; PyTuple ["Sun"; "Beta"]].
Proof. vm_compute. discriminate. Qed.

(** The measurement key on the whole state is [toggle_pair] on its list. *)
Lemma toggle_measurement_lines (v : PyGameVisualizer) (selected : string) :
  selected_star v = Some selected -> selected <> "" ->
  distance_lines (toggle_measurement v) =
    toggle_pair (measured_center_name v) selected (distance_lines v).
Proof.
intros Hsel Hne. unfold toggle_measurement. rewrite Hsel. simpl.
apply String.eqb_neq in Hne. rewrite Hne. reflexivity.
Qed.

(** ** Selection by click *)

Lemma click_scan_misses (v : PyGameVisualizer) (mouse_x mouse_y : R)
  (items : list (string * (R * R * R))) (st : click_state) :
  (forall nm c, In (nm, c) items ->
     Dict.mem String.eqb nm (star_lookup_cache v) = true) ->
  (forall nm sx sy sf star,
     In (nm, (sx, sy, sf)) items ->
     Dict.get String.eqb nm (star_lookup_cache v) = Some star ->
     distance_ly star <= max_distance v ->
     hit_size_of v star <= click_distance mouse_x mouse_y sx sy) ->
  fold_left (click_step v mouse_x mouse_y) items (Ok st) = Ok st.
Proof.
induction items as [|[nm [[sx sy] sf]] items IH]; intros Hwf Hmiss; simpl; [reflexivity|].
assert (Hmem := Hwf nm (sx, sy, sf) (or_introl eq_refl)).
unfold Dict.mem in Hmem. unfold subscript.
destruct (Dict.get String.eqb nm (star_lookup_cache v)) as [star|] eqn:Hget;
  [|discriminate]. simpl.
assert (Hstep :
  (if distance_ly star >? max_distance v then Ok st
   else if (click_distance mouse_x mouse_y sx sy <? hit_size_of v star) &&
           lt_best (click_distance mouse_x mouse_y sx sy) (closest_distance st)
        then Ok (mkClick (Some nm) (Some (click_distance mouse_x mouse_y sx sy)) (Some star))
        else Ok st) = Ok st).
{ destruct (distance_ly star >? max_distance v) eqn:Hfar; [reflexivity|].
  apply Rltb_false in Hfar.
  assert (Hm := Hmiss nm sx sy sf star (or_introl eq_refl) Hget Hfar).
  apply Rltb_false in Hm. rewrite Hm. reflexivity. }
rewrite Hstep. apply IH.
- intros nm' c Hin. apply (Hwf nm' c). right. exact Hin.
- intros nm' sx' sy' sf' star' Hin. apply (Hmiss nm' sx' sy' sf' star'). right. exact Hin.
Qed.

(** C10.  When no in-range star of the frame's projected-coordinate cache
    has the click within its hit radius
    [max(5, (15 - (abs_magnitude + 5) * 13/20) * glow_factor)], the click
    handler sets the selected star to none, whatever was selected before.
    The cache is a frame's cache: its names are names of the catalog. *)
Theorem click_beyond_hit_radius_clears_selection (v : PyGameVisualizer)
  (mouse_x mouse_y : R) (set_rotation_center : bool) :
  (forall nm c, In (nm, c) (screen_coords_cache v) ->
     Dict.mem String.eqb nm (star_lookup_cache v) = true) ->
  (forall nm sx sy sf star,
     In (nm, (sx, sy, sf)) (screen_coords_cache v) ->
     Dict.get String.eqb nm (star_lookup_cache v) = Some star ->
     distance_ly star <= max_distance v ->
     Rmax 5 ((15 - (abs_magnitude star + 5) * (13 / 20)) * glow_factor v)
       <= sqrt ((mouse_x - sx) ^ 2 + (mouse_y - sy) ^ 2)) ->
  exists v',
    _handle_mouse_click v (mouse_x, mouse_y) set_rotation_center = Ok (v', false) /\
    selected_star v' = None /\
    v' = set_selected_star None v.
Proof.
intros Hwf Hmiss.
exists (set_selected_star None v).
unfold _handle_mouse_click.
rewrite (click_scan_misses v mouse_x mouse_y (screen_coords_cache v)
           (mkClick None None None) Hwf Hmiss).
simpl. repeat split; reflexivity.
Qed.

Lemma sqrt_lower_bound (a b : R) : 0 <= a -> a * a <= b -> a <= sqrt b.
Proof.
intros Ha Hab. rewrite <- (sqrt_square a Ha).
apply sqrt_le_1; [nra | nra | exact Hab].
Qed.

Lemma click_beyond_hit_radius_clears_selection_witness :
  exists v',
    _handle_mouse_click sample_frame (0, 0) false = Ok (v', false) /\
    selected_star v' = None /\
    v' = set_selected_star None sample_frame.
Proof.
apply (click_beyond_hit_radius_clears_selection sample_frame 0 0 false).
- intros nm c [H|[]]. injection H as <- _. reflexivity.
- intros nm sx sy sf star [H|[]] Hget _.
  injection H as <- <- <- _.
  injection Hget as <-.
  apply Rle_trans with 16.
  + unfold sample_frame, sample_sun, init. cbn [abs_magnitude glow_factor
      set_screen_coords_cache set_selected_star].
    apply Rmax_lub; lra.
  + apply sqrt_lower_bound; lra.
Defined.

(** The cache [_render_stars] builds holds catalog names only. *)
Lemma render_stars_cache_names (v : PyGameVisualizer) (nm : string) (c : R * R * R) :
  In (nm, c) (screen_coords_cache (_render_stars v)) ->
  Dict.mem String.eqb nm (star_lookup_cache v) = true.
Proof.
unfold _render_stars. simpl.
assert (Hgen : forall rows d,
  In (nm, c)
    (fold_left
       (fun c0 star =>
          Dict.set String.eqb (name star)
            (_world_to_screen v (x star) (y star) (z star)) c0) rows d) ->
  In (nm, c) d \/ exists s, In s rows /\ name s = nm).
{ induction rows as [|r rows IH]; intros d; simpl; [left; assumption|].
  intros H. destruct (IH _ H) as [Hin|[s [Hs Hn]]].
  - apply (in_set String.eqb String.eqb_eq) in Hin.
    destruct Hin as [[-> _]|Hin]; [right; exists r; split; [left|]; reflexivity | left; exact Hin].
  - right. exists s. split; [right; exact Hs | exact Hn]. }
intros H. destruct (Hgen _ _ H) as [[]|[s [Hs Hn]]].
apply filter_In in Hs. destruct Hs as [Hs _].
apply row_name_in_lookup_cache in Hs. rewrite Hn in Hs.
apply key_in_get in Hs. destruct Hs as [s' Hs'].
unfold Dict.mem, star_lookup_cache. rewrite Hs'. reflexivity.
Qed.

(** ** The hop-selection round *)

Section RoundFacts.
Variables current_star end_star : Star.
Variables dist_to_end max_hop_distance : R.
Variable visited : list string.

Let elig := eligible current_star max_hop_distance visited.
Let impr := improving end_star dist_to_end.
Let score := hop_score current_star end_star dist_to_end.
Let pool := competing current_star end_star dist_to_end max_hop_distance visited.
Let step := consider_hop current_star end_star dist_to_end max_hop_distance visited.
Let lowest := first_lowest current_star end_star dist_to_end.
Let best := best_is current_star end_star dist_to_end.
Let inv := round_inv current_star end_star dist_to_end max_hop_distance visited.

Lemma lowest_single (c : Star) : lowest [c] c.
Proof.
exists [], []. split; [reflexivity|]. split; intros c' [].
Qed.

Lemma lowest_snoc_keep (l : list Star) (c x : Star) :
  lowest l c -> score c <= score x -> lowest (l ++ [x]) c.
Proof.
intros [pre [post [Hl [Hpre Hpost]]]] Hle.
exists pre, (post ++ [x]). split.
- rewrite Hl, <- app_assoc. reflexivity.
- split; [exact Hpre|].
  intros c' Hin. apply in_app_or in Hin. destruct Hin as [Hin|[<-|[]]].
  + apply Hpost. exact Hin.
  + exact Hle.
Qed.

Lemma lowest_snoc_replace (l : list Star) (c x : Star) :
  lowest l c -> score x < score c -> lowest (l ++ [x]) x.
Proof.
intros [pre [post [Hl [Hpre Hpost]]]] Hlt.
exists l, []. split; [reflexivity|]. split; [|intros c' []].
intros c' Hin. rewrite Hl in Hin. apply in_app_or in Hin.
destruct Hin as [Hin|[<-|Hin]].
- apply Rlt_trans with (score c); [exact Hlt | apply Hpre; exact Hin].
- exact Hlt.
- apply Rlt_le_trans with (score c); [exact Hlt | apply Hpost; exact Hin].
Qed.

Lemma no_improving_filter (seen : list Star) :
  existsb (fun c => elig c && impr c) seen = false ->
  filter (fun c => elig c && impr c) seen = [].
Proof.
induction seen as [|c seen IH]; simpl; [reflexivity|].
intros H. apply orb_false_iff in H. destruct H as [H1 H2].
rewrite H1. apply IH. exact H2.
Qed.

Lemma pool_snoc (seen : list Star) (x : Star) :
  pool (seen ++ [x]) =
    if elig x
    then if impr x
         then (if existsb (fun c => elig c && impr c) seen then pool seen else []) ++ [x]
         else if existsb (fun c => elig c && impr c) seen then pool seen
              else pool seen ++ [x]
    else pool seen.
Proof.
unfold pool, competing. fold elig. fold impr.
rewrite existsb_app, !filter_app. simpl.
destruct (existsb (fun c => elig c && impr c) seen) eqn:Hex;
  destruct (elig x); destruct (impr x); simpl;
  rewrite ?app_nil_r; try reflexivity.
rewrite (no_improving_filter seen Hex). reflexivity.
Qed.

(** The comparison [score < best_score] keeps the first lowest score of
    the pool extended by [x]. *)
Lemma compare_step (l : list Star) (x : Star) (bh : option string) (bs : option R)
  (fnd : bool) :
  best l bh bs ->
  let st' :=
    if lt_best (score x) bs
    then mkHop (Some (name x)) (Some (score x)) fnd
    else mkHop bh bs fnd in
  found_closer_hop st' = fnd /\
  best (l ++ [x]) (best_hop st') (best_score st').
Proof.
unfold best, best_is. fold score. fold lowest.
destruct bh as [h|]; destruct bs as [sc|]; simpl; try contradiction.
- intros [c [Hn [Hsc Hlow]]].
  destruct (score x <? sc) eqn:E; simpl.
  + apply Rltb_true in E. split; [reflexivity|].
    exists x. repeat split. apply lowest_snoc_replace with c; [exact Hlow | lra].
  + apply Rltb_false in E. split; [reflexivity|].
    exists c. repeat split; try assumption.
    apply lowest_snoc_keep; [exact Hlow | lra].
- intros ->. split; [reflexivity|].
  exists x. repeat split. apply lowest_single.
Qed.

(** [consider_hop] by cases on the candidate. *)
Lemma consider_hop_cases (bh : option string) (bs : option R) (fnd : bool) (x : Star) :
  step (mkHop bh bs fnd) x =
    if elig x
    then if impr x
         then if fnd
              then (if lt_best (score x) bs
                    then mkHop (Some (name x)) (Some (score x)) fnd
                    else mkHop bh bs fnd)
              else mkHop (Some (name x)) (Some (score x)) true
         else if fnd then mkHop bh bs fnd
              else (if lt_best (score x) bs
                    then mkHop (Some (name x)) (Some (score x)) fnd
                    else mkHop bh bs fnd)
    else mkHop bh bs fnd.
Proof.
unfold step, consider_hop, elig, eligible, impr, improving, score, hop_score, improving.
cbn [found_closer_hop best_score best_hop].
destruct (name_in (name x) visited); [reflexivity|].
destruct ((dist current_star x <? 0.5) || (dist current_star x >? max_hop_distance));
  [reflexivity|].
cbn [negb andb].
destruct (dist x end_star <? dist_to_end); destruct fnd; reflexivity.
Qed.

Lemma round_inv_step (seen : list Star) (st : hop_state) (x : Star) :
  inv seen st -> inv (seen ++ [x]) (step st x).
Proof.
unfold inv, round_inv. fold elig. fold impr. fold pool. fold best.
destruct st as [bh bs fnd]. cbn [found_closer_hop best_score best_hop].
intros [Hfound Hbest].
rewrite consider_hop_cases, pool_snoc, existsb_app. simpl existsb.
rewrite <- Hfound.
destruct (elig x);
  [|cbn [andb orb found_closer_hop best_hop best_score]; rewrite orb_false_r;
    split; [reflexivity | exact Hbest]].
destruct (impr x); destruct fnd; cbn [andb orb]; rewrite ?orb_true_r, ?orb_false_r.
- destruct (compare_step (pool seen) x bh bs true Hbest) as [Hf Hb].
  split; [exact Hf | exact Hb].
- split; [reflexivity|]. cbn [best_hop best_score app].
  exists x. repeat split. apply lowest_single.
- cbn [found_closer_hop best_hop best_score]. split; [reflexivity | exact Hbest].
- destruct (compare_step (pool seen) x bh bs false Hbest) as [Hf Hb].
  split; [exact Hf | exact Hb].
Qed.

Lemma round_inv_fold (cands seen : list Star) (st : hop_state) :
  inv seen st -> inv (seen ++ cands) (fold_left step cands st).
Proof.
revert seen st. induction cands as [|x cands IH]; intros seen st Hinv; simpl.
- rewrite app_nil_r. exact Hinv.
- replace (seen ++ x :: cands) with ((seen ++ [x]) ++ cands)
    by (rewrite <- app_assoc; reflexivity).
  apply IH. apply round_inv_step. exact Hinv.
Qed.

Lemma find_best_hop_inv (cands : list Star) :
  inv cands
    (find_best_hop current_star end_star dist_to_end max_hop_distance visited cands).
Proof.
unfold find_best_hop. apply (round_inv_fold cands [] (mkHop None None false)).
split; reflexivity.
Qed.

End RoundFacts.

Lemma competing_incl (current_star end_star : Star) (dist_to_end max_hop_distance : R)
  (visited : list string) (cands : list Star) (c : Star) :
  In c (competing current_star end_star dist_to_end max_hop_distance visited cands) ->
  In c cands /\ eligible current_star max_hop_distance visited c = true.
Proof.
unfold competing.
destruct (existsb _ cands); intros H; apply filter_In in H; destruct H as [Hin Hc].
- apply andb_true_iff in Hc. tauto.
- tauto.
Qed.

Lemma competing_nil (current_star end_star : Star) (dist_to_end max_hop_distance : R)
  (visited : list string) (cands : list Star) :
  competing current_star end_star dist_to_end max_hop_distance visited cands = [] <->
  (forall c, In c cands -> eligible current_star max_hop_distance visited c = false).
Proof.
unfold competing. split.
- intros H c Hin.
  destruct (eligible current_star max_hop_distance visited c) eqn:E; [|reflexivity].
  exfalso.
  destruct (existsb _ cands) eqn:Hex.
  + apply existsb_exists in Hex. destruct Hex as [c' [Hin' Hc']].
    assert (Hf : In c' (filter
       (fun c0 => eligible current_star max_hop_distance visited c0 &&
                  improving end_star dist_to_end c0) cands))
      by (apply filter_In; split; assumption).
    rewrite H in Hf. exact Hf.
  + assert (Hf : In c (filter (eligible current_star max_hop_distance visited) cands))
      by (apply filter_In; split; assumption).
    rewrite H in Hf. exact Hf.
- intros H.
  assert (Hnil : forall f : Star -> bool,
            (forall c, In c cands -> f c = false) -> filter f cands = []).
  { intros f Hf. induction cands as [|c cands IH]; simpl; [reflexivity|].
    rewrite (Hf c (or_introl eq_refl)). apply IH.
    - intros c' Hc'. apply H. right. exact Hc'.
    - intros c' Hc'. apply Hf. right. exact Hc'. }
  destruct (existsb _ cands); apply Hnil; intros c Hin; rewrite (H c Hin); reflexivity.
Qed.

(** C4.  In a hop-selection round an improving candidate (one with
    [to_end_distance < dist_to_end]) has score
    [hop_distance/2 - progress_factor * dist_to_end/3] with
    [progress_factor = (dist_to_end - to_end_distance)/dist_to_end]; a
    non-improving one has score
    [hop_distance + 2 * (to_end_distance - dist_to_end)] and competes only
    when no improving candidate survives the filters.  The round chooses
    the lowest score, and among equal scores the candidate met first in
    catalog order; it chooses nothing exactly when no candidate survives. *)
Theorem hop_round_chooses_first_lowest_score
  (current_star end_star : Star) (dist_to_end max_hop_distance : R)
  (visited : list string) (candidate_stars : list Star) :
  let score := fun c : Star =>
    if dist c end_star <? dist_to_end
    then dist current_star c / 2 -
         ((dist_to_end - dist c end_star) / dist_to_end) * dist_to_end / 3
    else dist current_star c + 2 * (dist c end_star - dist_to_end) in
  let survives := fun c : Star =>
    negb (name_in (name c) visited) &&
    negb ((dist current_star c <? 0.5) || (dist current_star c >? max_hop_distance)) in
  let gets_closer := fun c : Star => dist c end_star <? dist_to_end in
  let pool :=
    if existsb (fun c => survives c && gets_closer c) candidate_stars
    then filter (fun c => survives c && gets_closer c) candidate_stars
    else filter survives candidate_stars in
  let st := find_best_hop current_star end_star dist_to_end max_hop_distance
              visited candidate_stars in
  match best_hop st with
  | None => pool = [] /\ forall c, In c candidate_stars -> survives c = false
  | Some h =>
      exists pre c post,
        pool = pre ++ c :: post /\
        name c = h /\
        best_score st = Some (score c) /\
        (forall c', In c' pre -> score c < score c') /\
        (forall c', In c' post -> score c <= score c')
  end.
Proof.
intros score survives gets_closer pool st.
assert (Hscore : forall c, hop_score current_star end_star dist_to_end c = score c).
{ intros c. unfold hop_score, improving, score, closer_score, farther_score.
  destruct (dist c end_star <? dist_to_end); ring. }
destruct (find_best_hop_inv current_star end_star dist_to_end max_hop_distance
            visited candidate_stars) as [_ Hbest].
fold st in Hbest. unfold best_is in Hbest.
change (competing current_star end_star dist_to_end max_hop_distance visited
          candidate_stars) with pool in Hbest.
destruct (best_hop st) as [h|]; destruct (best_score st) as [sc|]; try contradiction.
- destruct Hbest as [c [Hn [Hsc [pre [post [Hpool [Hpre Hpost]]]]]]].
  exists pre, c, post. rewrite <- Hscore.
  repeat split; try assumption.
  + rewrite Hsc. reflexivity.
  + intros c' Hin. rewrite <- Hscore. apply Hpre. exact Hin.
  + intros c' Hin. rewrite <- Hscore. apply Hpost. exact Hin.
- split; [exact Hbest|].
  apply (competing_nil current_star end_star dist_to_end max_hop_distance visited).
  exact Hbest.
Qed.

(** The division in the improving score never has a zero divisor: a
    candidate can only get closer than a positive distance. *)
Lemma improving_divisor_nonzero (c end_star : Star) (dist_to_end : R) :
  improving end_star dist_to_end c = true -> dist_to_end <> 0.
Proof.
unfold improving. intros H. apply Rltb_true in H.
assert (H0 := dist_nonneg c end_star). lra.
Qed.

(** What the planner needs of a round: a chosen hop is the name of an
    unvisited candidate. *)
Lemma best_hop_is_candidate (current_star end_star : Star)
  (dist_to_end max_hop_distance : R) (visited : list string) (cands : list Star)
  (h : string) :
  best_hop (find_best_hop current_star end_star dist_to_end max_hop_distance
              visited cands) = Some h ->
  exists c, In c cands /\ name c = h /\ name_in h visited = false.
Proof.
intros Hh.
destruct (find_best_hop_inv current_star end_star dist_to_end max_hop_distance
            visited cands) as [_ Hbest].
unfold best_is in Hbest. rewrite Hh in Hbest.
destruct (best_score _) as [sc|]; [|contradiction].
destruct Hbest as [c [Hn [_ [pre [post [Hpool _]]]]]].
assert (Hin : In c (competing current_star end_star dist_to_end max_hop_distance
                      visited cands)).
{ rewrite Hpool. apply in_or_app. right. left. reflexivity. }
apply competing_incl in Hin. destruct Hin as [Hin Hel].
exists c. split; [exact Hin|]. split; [exact Hn|].
unfold eligible in Hel. apply andb_true_iff in Hel. destruct Hel as [Hv _].
apply negb_true_iff in Hv. rewrite <- Hn. exact Hv.
Qed.

(** ** The planning loop *)

Lemma name_in_true (nm : string) (s : list string) : name_in nm s = true <-> In nm s.
Proof.
unfold name_in. rewrite existsb_exists. split.
- intros [x0 [Hin Heq]]. apply String.eqb_eq in Heq. subst x0. exact Hin.
- intros Hin. exists nm. split; [exact Hin | apply String.eqb_refl].
Qed.

Lemma nodup_snoc {A : Type} (l : list A) (a : A) :
  NoDup l -> ~ In a l -> NoDup (l ++ [a]).
Proof.
intros Hnd Hnot. induction l as [|b l IH]; simpl.
- constructor; [intros [] | constructor].
- inversion Hnd as [|? ? Hb Hl]; subst. constructor.
  + intros Hin. apply in_app_or in Hin. destruct Hin as [Hin|[<-|[]]].
    * apply Hb. exact Hin.
    * apply Hnot. left. reflexivity.
  + apply IH; [exact Hl|]. intros Hin. apply Hnot. right. exact Hin.
Qed.

Lemma last_in {A : Type} (l : list A) (d : A) : l <> [] -> In (last l d) l.
Proof.
induction l as [|a l IH]; [intros H; contradiction|].
intros _. destruct l as [|b l]; [left; reflexivity|].
right. apply IH. discriminate.
Qed.

Lemma candidates_in_catalog (rows : list Star) (rcs selected : string) (max_dist : R)
  (c : Star) :
  In c (candidate_stars_of (build_lookup_cache rows) rcs selected max_dist) ->
  name c <> rcs /\ name c <> selected /\
  exists s, Dict.get String.eqb (name c) (build_lookup_cache rows) = Some s.
Proof.
unfold candidate_stars_of. intros H.
apply in_map_iff in H. destruct H as [[k s] [Hs Hin]]. simpl in Hs. subst s.
apply filter_In in Hin. destruct Hin as [Hin Hc]. simpl in Hc.
apply andb_true_iff in Hc. destruct Hc as [Hc _].
apply andb_true_iff in Hc. destruct Hc as [Hrc Hsel].
apply negb_true_iff in Hrc. apply negb_true_iff in Hsel.
rewrite (lookup_cache_key_is_name rows k c Hin).
repeat split.
- apply String.eqb_neq. exact Hrc.
- apply String.eqb_neq. exact Hsel.
- apply (in_get String.eqb String.eqb_eq) in Hin. exact Hin.
Qed.

Lemma total_distance_from_ok (cache : list (string * Star)) (names : list string) :
  (forall nm, In nm names -> exists s, Dict.get String.eqb nm cache = Some s) ->
  forall (prev_star : Star) (acc : R),
    exists t, total_distance_from cache prev_star names acc = Ok t.
Proof.
induction names as [|nm names IH]; intros Hall prev acc; simpl.
- exists acc. reflexivity.
- destruct (Hall nm (or_introl eq_refl)) as [s Hs].
  unfold subscript. rewrite Hs. simpl.
  apply IH. intros nm' Hin. apply Hall. right. exact Hin.
Qed.

Section Loop.
Variable cache : list (string * Star).
Variable candidate_stars : list Star.
Variables start_star end_star : Star.
Variable selected : string.
Variables direct_distance max_hop_distance : R.

Hypothesis candidates_ok :
  forall c, In c candidate_stars ->
    name c <> selected /\ exists s, Dict.get String.eqb (name c) cache = Some s.

Let growing := route_growing cache selected.
Let left_loop := route_left cache selected.

Lemma leave_for_destination (route visited : list string) (n : nat) :
  growing route visited -> left_loop route (route ++ [selected]) (S n).
Proof.
intros [Hne [Hnd [Hsel _]]]. unfold left_loop, route_left. repeat split.
- exists [selected]. reflexivity.
- rewrite length_app. simpl. lia.
- rewrite length_app. simpl. lia.
- rewrite length_app. simpl. lia.
- apply nodup_snoc; assumption.
- left. apply last_last.
Qed.

Lemma hop_loop_ok (n : nat) :
  forall (route : list string) (current_star : Star) (visited : list string),
    growing route visited ->
    exists r,
      hop_loop cache candidate_stars start_star end_star selected
        direct_distance max_hop_distance n route current_star visited = Ok r /\
      left_loop route r n.
Proof.
induction n as [|n IH]; intros route current_star visited Hg.
- exists route. split; [reflexivity|].
  destruct Hg as [Hne [Hnd [Hsel [_ Hget]]]]. unfold left_loop, route_left. repeat split.
  + exists []. rewrite app_nil_r. reflexivity.
  + lia.
  + lia.
  + intros H. contradiction.
  + exact Hnd.
  + right. split; assumption.
- simpl.
  destruct (dist current_star end_star <? max_hop_distance * 0.6).
  { exists (route ++ [selected]). split; [reflexivity|].
    apply leave_for_destination with visited. exact Hg. }
  destruct (total_distance_from_ok cache (tl route)) with (prev_star := start_star)
    (acc := 0) as [t Ht].
  { intros nm Hin. destruct Hg as [_ [_ [_ [_ Hget]]]]. apply Hget.
    destruct route; [contradiction | right; exact Hin]. }
  rewrite Ht. simpl.
  destruct (t >? direct_distance * max_detour_factor - dist current_star end_star).
  { exists (route ++ [selected]). split; [reflexivity|].
    apply leave_for_destination with visited. exact Hg. }
  destruct (best_hop (find_best_hop current_star end_star (dist current_star end_star)
                        max_hop_distance visited candidate_stars)) as [hop|] eqn:Hbest.
  2:{ exists (route ++ [selected]). split; [reflexivity|].
      apply leave_for_destination with visited. exact Hg. }
  apply best_hop_is_candidate in Hbest.
  destruct Hbest as [c [Hin [Hname Hvis]]].
  destruct (candidates_ok c Hin) as [Hnsel [s Hs]]. rewrite Hname in Hnsel, Hs.
  unfold subscript. rewrite Hs. simpl.
  assert (Hnotin : ~ In hop visited).
  { intros H. apply name_in_true in H. rewrite H in Hvis. discriminate. }
  destruct Hg as [Hne [Hnd [Hsel [Hsub Hget]]]].
  assert (Hg' : growing (route ++ [hop]) (hop :: visited)).
  { unfold growing, route_growing. repeat split.
    - intros H. apply app_eq_nil in H. destruct H as [_ H]. discriminate.
    - apply nodup_snoc; [exact Hnd|]. intros H. apply Hnotin. apply Hsub. exact H.
    - intros H. apply in_app_or in H. destruct H as [H|[H|[]]].
      + apply Hsel. exact H.
      + apply Hnsel. exact H.
    - intros nm H. apply in_app_or in H. destruct H as [H|[<-|[]]].
      + right. apply Hsub. exact H.
      + left. reflexivity.
    - intros nm H. apply in_app_or in H. destruct H as [H|[<-|[]]].
      + apply Hget. exact H.
      + exists s. exact Hs. }
  destruct (IH (route ++ [hop]) s (hop :: visited) Hg') as [r [Hr Hleft]].
  exists r. split; [exact Hr|].
  destruct Hleft as [[more Hmore] [Hlen [Hpos [Hndr Hlast]]]].
  rewrite length_app in Hlen. simpl in Hlen.
  unfold left_loop, route_left. repeat split.
  + exists (hop :: more). rewrite Hmore, <- app_assoc. reflexivity.
  + lia.
  + lia.
  + intros _. lia.
  + exact Hndr.
  + exact Hlast.
Qed.

Lemma finish_route_ok (route0 r : list string) (n : nat) (e : Star) :
  route0 <> [] ->
  Dict.get String.eqb selected cache = Some e ->
  left_loop route0 r n ->
  exists r',
    finish_route cache selected r = Ok r' /\
    (r' = r \/ r' = r ++ [selected]) /\
    (last r "" = selected -> r' = r) /\
    NoDup r'.
Proof.
intros Hne He [[more Hmore] [Hlen [_ [Hnd Hlast]]]].
unfold finish_route.
destruct (String.eqb (last r "") selected) eqn:E.
- exists r. repeat split; auto.
- apply String.eqb_neq in E.
  destruct Hlast as [Hlast|[Hsel Hget]]; [contradiction|].
  assert (Hrne : r <> []).
  { rewrite Hmore. intros H. apply app_eq_nil in H. destruct H as [H _]. contradiction. }
  destruct (Hget _ (last_in r "" Hrne)) as [s Hs].
  unfold subscript. rewrite Hs, He. simpl.
  destruct (dist s e >=? 0.05).
  + exists (r ++ [selected]). repeat split; auto.
    * intros H. contradiction.
    * apply nodup_snoc; assumption.
  + exists r. repeat split; auto.
Qed.

End Loop.

(** ** The planner *)

Lemma direct_distance_consistent (v : PyGameVisualizer) (a b : string) (sa sb : Star) :
  cache_consistent v ->
  Dict.get String.eqb a (star_lookup_cache v) = Some sa ->
  Dict.get String.eqb b (star_lookup_cache v) = Some sb ->
  fst (direct_distance_of (route_cache v) a b sa sb) = dist sa sb.
Proof.
intros Hc Ha Hb. unfold direct_distance_of.
destruct (cached_distance (route_cache v) [a; b]) as [d|] eqn:E1.
- simpl. apply (Hc a b d sa sb E1 Ha Hb).
- destruct (cached_distance (route_cache v) [b; a]) as [d|] eqn:E2.
  + simpl. rewrite dist_sym. apply (Hc b a d sb sa E2 Hb Ha).
  + reflexivity.
Qed.

(** The main branch of the planner: both end points resolve and differ. *)
Lemma plan_between_distinct (v : PyGameVisualizer) (rcs sel : string) (s e : Star) :
  selected_star v = Some sel ->
  center_name v = Some rcs ->
  rcs <> sel ->
  Dict.get String.eqb rcs (star_lookup_cache v) = Some s ->
  Dict.get String.eqb sel (star_lookup_cache v) = Some e ->
  exists route,
    _calculate_star_hop_route v =
      Ok (route, snd (direct_distance_of (route_cache v) rcs sel s e)) /\
    (2 <= List.length route <= 12)%nat /\
    NoDup route /\
    (exists more, route = rcs :: more) /\
    (fst (direct_distance_of (route_cache v) rcs sel s e) < 2 -> route = [rcs; sel]).
Proof.
intros Hsel Hrc Hne Hs He.
unfold _calculate_star_hop_route. rewrite Hsel, Hrc.
apply String.eqb_neq in Hne. rewrite Hne. apply String.eqb_neq in Hne.
unfold subscript. rewrite Hs, He. cbn [bind].
destruct (direct_distance_of (route_cache v) rcs sel s e) as [dd rc] eqn:Hdd.
cbn [fst snd].
destruct (dd <? 2.0) eqn:Hshort.
- exists [rcs; sel]. split; [reflexivity|]. split; [simpl; lia|]. split.
  + constructor; [intros [H|[]]; apply Hne; symmetry; exact H|].
    constructor; [intros [] | constructor].
  + split; [exists [sel]; reflexivity | reflexivity].
- apply Rltb_false in Hshort.
  assert (Hcands : forall c,
    In c (candidate_stars_of (star_lookup_cache v) rcs sel (max_distance v)) ->
    name c <> sel /\
    exists s0, Dict.get String.eqb (name c) (star_lookup_cache v) = Some s0).
  { intros c Hin. apply candidates_in_catalog in Hin. tauto. }
  assert (Hg : route_growing (star_lookup_cache v) sel [rcs] [rcs]).
  { unfold route_growing. repeat split.
    - discriminate.
    - constructor; [intros [] | constructor].
    - intros [H|[]]. apply Hne. exact H.
    - intros nm H. exact H.
    - intros nm [<-|[]]. exists s. exact Hs. }
  destruct (hop_loop_ok (star_lookup_cache v)
              (candidate_stars_of (star_lookup_cache v) rcs sel (max_distance v))
              s e sel dd (dd * 0.7) Hcands max_hops [rcs] s [rcs] Hg)
    as [r [Hr Hleft]].
  rewrite Hr. cbn [bind].
  assert (Hne1 : [rcs] <> []) by discriminate.
  destruct (finish_route_ok (star_lookup_cache v) sel [rcs] r max_hops e Hne1 He Hleft)
    as [r' [Hr' [Hshape [_ Hnd]]]].
  rewrite Hr'. cbn [bind].
  exists r'. split; [reflexivity|].
  destruct Hleft as [[more Hmore] [Hlen [Hpos _]]].
  assert (Hpos' := Hpos (Nat.neq_succ_0 _)).
  unfold max_hops in Hlen. simpl in Hlen, Hpos'.
  split; [|split; [exact Hnd|split]].
  + destruct Hshape as [->| ->]; [lia|]. rewrite length_app. simpl. lia.
  + destruct Hshape as [->| ->]; rewrite Hmore; simpl; eexists; reflexivity.
  + intros H. lra.
Qed.

(** C1.  For a rotation-centre star and a selected star of the catalog
    with different names, the planner returns a route of at least 2 and at
    most 12 names (the origin, at most [max_hops = 10] hops, the
    destination); the loop is a [for] over ten iterations and the planner
    returns.  This holds at every direct distance, so in particular from
    2.0 light-years on, where the loop runs. *)
Theorem route_length_between_2_and_12 (v : PyGameVisualizer) (rcs sel : string)
  (s e : Star) :
  selected_star v = Some sel ->
  center_name v = Some rcs ->
  rcs <> sel ->
  Dict.get String.eqb rcs (star_lookup_cache v) = Some s ->
  Dict.get String.eqb sel (star_lookup_cache v) = Some e ->
  exists route rc,
    _calculate_star_hop_route v = Ok (route, rc) /\
    (2 <= List.length route <= 12)%nat.
Proof.
intros Hsel Hrc Hne Hs He.
destruct (plan_between_distinct v rcs sel s e Hsel Hrc Hne Hs He)
  as [route [Hplan [Hlen _]]].
exists route, (snd (direct_distance_of (route_cache v) rcs sel s e)).
split; assumption.
Qed.

Lemma route_length_between_2_and_12_witness :
  selected_star sample_trip = Some "Alpha" /\
  center_name sample_trip = Some "Sun" /\
  exists route rc,
    _calculate_star_hop_route sample_trip = Ok (route, rc) /\
    (2 <= List.length route <= 12)%nat.
Proof.
split; [reflexivity|]. split; [reflexivity|].
apply (route_length_between_2_and_12 sample_trip "Sun" "Alpha" sample_sun sample_alpha).
- reflexivity.
- reflexivity.
- discriminate.
- reflexivity.
- reflexivity.
Defined.

(** C3.  Whatever the state, a route the planner returns holds no name
    twice. *)
Theorem route_has_no_duplicate_names (v : PyGameVisualizer) (route : list string)
  (rc : route_cache_t) :
  _calculate_star_hop_route v = Ok (route, rc) -> NoDup route.
Proof.
intros H.
destruct (selected_star v) as [sel|] eqn:Hsel.
2:{ unfold _calculate_star_hop_route in H. rewrite Hsel in H.
    injection H as <- _. constructor. }
destruct (center_name v) as [rcs|] eqn:Hrc.
2:{ unfold _calculate_star_hop_route in H. rewrite Hsel, Hrc in H.
    injection H as <- _. constructor. }
destruct (String.eqb rcs sel) eqn:Heq.
{ unfold _calculate_star_hop_route in H. rewrite Hsel, Hrc, Heq in H.
  injection H as <- _. constructor. }
destruct (Dict.get String.eqb rcs (star_lookup_cache v)) as [s|] eqn:Hs.
2:{ unfold _calculate_star_hop_route, subscript in H.
    rewrite Hsel, Hrc, Heq, Hs in H. discriminate. }
destruct (Dict.get String.eqb sel (star_lookup_cache v)) as [e|] eqn:He.
2:{ unfold _calculate_star_hop_route, subscript in H.
    rewrite Hsel, Hrc, Heq, Hs, He in H. discriminate. }
apply String.eqb_neq in Heq.
destruct (plan_between_distinct v rcs sel s e Hsel Hrc Heq Hs He)
  as [route' [Hplan [_ [Hnd _]]]].
rewrite Hplan in H. injection H as <- _. exact Hnd.
Qed.

Lemma sample_short_distance : dist sample_sun sample_beta < 2.
Proof.
unfold dist, _calculate_distance, sample_sun, sample_beta. cbn [x y z].
apply Rlt_le_trans with (sqrt 4).
- apply sqrt_lt_1; lra.
- replace 4 with (2 * 2) by lra. rewrite sqrt_square; lra.
Qed.

Lemma sample_short_route :
  _calculate_star_hop_route sample_short =
    Ok (["Sun"; "Beta"],
        [(["Sun"; "Beta"], mkEntry (Some (dist sample_sun sample_beta)) None)]).
Proof.
destruct (plan_between_distinct sample_short "Sun" "Beta" sample_sun sample_beta)
  as [route [Hplan [_ [_ [_ Hshort]]]]]; try reflexivity; try discriminate.
rewrite Hplan. rewrite Hshort; [reflexivity|].
exact sample_short_distance.
Qed.

Lemma route_has_no_duplicate_names_witness :
  _calculate_star_hop_route sample_short =
    Ok (["Sun"; "Beta"],
        [(["Sun"; "Beta"], mkEntry (Some (dist sample_sun sample_beta)) None)]) /\
  NoDup ["Sun"; "Beta"].
Proof.
split; [exact sample_short_route|].
apply (route_has_no_duplicate_names sample_short ["Sun"; "Beta"]
         [(["Sun"; "Beta"], mkEntry (Some (dist sample_sun sample_beta)) None)]).
exact sample_short_route.
Defined.

(** C2.  For an origin and a destination at a distance below 2.0
    light-years the planner returns exactly the two-element route
    [[origin.name, destination.name]], with no intermediate hop.  Origin
    and destination are two entries of the catalog, the rotation-centre
    star and the selected star, with different names (the planner's
    precondition); the route cache holds only distances the code stored. *)
Theorem short_trip_is_direct (v : PyGameVisualizer) (rcs sel : string) (s e : Star) :
  selected_star v = Some sel ->
  center_name v = Some rcs ->
  rcs <> sel ->
  Dict.get String.eqb rcs (star_lookup_cache v) = Some s ->
  Dict.get String.eqb sel (star_lookup_cache v) = Some e ->
  cache_consistent v ->
  _calculate_distance (Some s) (Some e) < 2.0 ->
  exists rc, _calculate_star_hop_route v = Ok ([name s; name e], rc).
Proof.
intros Hsel Hrc Hne Hs He Hcons Hshort.
destruct (plan_between_distinct v rcs sel s e Hsel Hrc Hne Hs He)
  as [route [Hplan [_ [_ [_ Hdirect]]]]].
exists (snd (direct_distance_of (route_cache v) rcs sel s e)).
rewrite Hplan. rewrite Hdirect.
- apply (get_in String.eqb String.eqb_eq) in Hs.
  apply (get_in String.eqb String.eqb_eq) in He.
  rewrite (lookup_cache_key_is_name _ _ _ Hs), (lookup_cache_key_is_name _ _ _ He).
  reflexivity.
- rewrite (direct_distance_consistent v rcs sel s e Hcons Hs He).
  unfold dist. lra.
Qed.

Lemma short_trip_is_direct_witness :
  _calculate_distance (Some sample_sun) (Some sample_beta) < 2.0 /\
  exists rc, _calculate_star_hop_route sample_short = Ok (["Sun"; "Beta"], rc).
Proof.
assert (Hd : _calculate_distance (Some sample_sun) (Some sample_beta) < 2.0).
{ generalize sample_short_distance. unfold dist. lra. }
split; [exact Hd|].
apply (short_trip_is_direct sample_short "Sun" "Beta" sample_sun sample_beta).
- reflexivity.
- reflexivity.
- discriminate.
- reflexivity.
- reflexivity.
- intros a b d sa sb H. discriminate H.
- exact Hd.
Defined.

(** The initial state has a consistent (empty) route cache, and the
    planner keeps the cache consistent. *)
Lemma init_cache_consistent (df : list Star) : cache_consistent (init df).
Proof. intros a b d sa sb H. discriminate H. Qed.

Lemma planner_keeps_cache_consistent (v : PyGameVisualizer) (route : list string)
  (rc : route_cache_t) :
  cache_consistent v ->
  _calculate_star_hop_route v = Ok (route, rc) ->
  cache_consistent (set_route_cache rc v).
Proof.
intros Hcons H.
assert (Hsame : cache_consistent (set_route_cache (route_cache v) v)).
{ intros a b d sa sb. apply Hcons. }
destruct (selected_star v) as [sel|] eqn:Hsel.
2:{ unfold _calculate_star_hop_route in H. rewrite Hsel in H.
    injection H as _ <-. exact Hsame. }
destruct (center_name v) as [rcs|] eqn:Hrc.
2:{ unfold _calculate_star_hop_route in H. rewrite Hsel, Hrc in H.
    injection H as _ <-. exact Hsame. }
destruct (String.eqb rcs sel) eqn:Heq.
{ unfold _calculate_star_hop_route in H. rewrite Hsel, Hrc, Heq in H.
  injection H as _ <-. exact Hsame. }
destruct (Dict.get String.eqb rcs (star_lookup_cache v)) as [s|] eqn:Hs.
2:{ unfold _calculate_star_hop_route, subscript in H.
    rewrite Hsel, Hrc, Heq, Hs in H. discriminate. }
destruct (Dict.get String.eqb sel (star_lookup_cache v)) as [e|] eqn:He.
2:{ unfold _calculate_star_hop_route, subscript in H.
    rewrite Hsel, Hrc, Heq, Hs, He in H. discriminate. }
apply String.eqb_neq in Heq.
destruct (plan_between_distinct v rcs sel s e Hsel Hrc Heq Hs He)
  as [route' [Hplan _]].
rewrite Hplan in H. injection H as _ <-.
unfold direct_distance_of.
destruct (cached_distance (route_cache v) [rcs; sel]); [exact Hsame|].
destruct (cached_distance (route_cache v) [sel; rcs]); [exact Hsame|].
cbn [snd]. intros a b d sa sb Hd Ha Hb.
change (star_lookup_cache (set_route_cache _ v)) with (star_lookup_cache v) in Ha, Hb.
unfold cached_distance in Hd. cbn [route_cache set_route_cache] in Hd.
destruct (list_eq_dec string_dec [a; b] [rcs; sel]) as [Heqk|Hnek].
- rewrite Heqk in Hd. rewrite (get_set_same list_eqb list_eqb_eq) in Hd.
  cbn [ce_distance] in Hd.
  injection Heqk as -> ->.
  rewrite Hs in Ha. rewrite He in Hb.
  injection Hd as <-. injection Ha as <-. injection Hb as <-. reflexivity.
- rewrite (get_set_other list_eqb list_eqb_eq _ _ _ _ Hnek) in Hd.
  apply (Hcons a b d sa sb); assumption.
Qed.

(** ** Missing names *)

Lemma at_center_of_origin : at_center (0, 0, 0) sample_sun = true.
Proof.
unfold at_center, sample_sun. cbn [x y z].
replace (0 - 0) with 0 by ring. rewrite Rabs_R0.
assert (H : (0 <? 0.0001) = true) by (apply Rltb_true; lra).
rewrite H. reflexivity.
Qed.

Lemma sample_reloaded_center : center_name sample_reloaded = Some "Sun".
Proof.
unfold center_name.
change (rotation_center_star sample_reloaded) with (@None Star).
change (rotation_center sample_reloaded) with (0, 0, 0).
change (stars_df sample_reloaded) with [sample_sun; sample_alpha; sample_beta].
cbn [find]. rewrite at_center_of_origin. reflexivity.
Qed.

(** C9 fails on the code: with a selected name that is not a key of the
    lookup cache, the planner raises [KeyError] at
    [star_lookup_cache[selected_star]], and the add-route key lets it
    through.  Loading a view saved over another catalog leaves such a
    state. *)
Theorem stale_selected_star_raises_key_error :
  selected_star sample_reloaded = Some "Ghost" /\
  Dict.get String.eqb "Ghost" (star_lookup_cache sample_reloaded) = None /\
  _calculate_star_hop_route sample_reloaded = Raise (KeyError "Ghost") /\
  add_route sample_reloaded = Raise (KeyError "Ghost") /\
  _calculate_star_hop_route sample_stale = Raise (KeyError "Ghost").
Proof.
assert (Hplan : _calculate_star_hop_route sample_reloaded = Raise (KeyError "Ghost")).
{ unfold _calculate_star_hop_route. rewrite sample_reloaded_center. reflexivity. }
split; [reflexivity|]. split; [reflexivity|]. split; [exact Hplan|].
split; [|reflexivity].
unfold add_route. rewrite Hplan. reflexivity.
Qed.

(** ** Saved views *)

(** What saving and at once loading the same slot does to the selection,
    the routes and the measurements: the first two come back as they were
    (an empty-string selection aside), the measurements come back with
    every tuple turned into a list. *)
Lemma save_then_load (v : PyGameVisualizer) (now : string) (slot : nat)
  (files : saved_views_t) :
  let v' := fst (_load_view v slot (fst (_save_view v now slot files))) in
  selected_star v' = (if truthy (selected_star v) then selected_star v else None) /\
  star_hop_routes v' = star_hop_routes v /\
  distance_lines v' = map (fun s => PyList (items_of s)) (distance_lines v).
Proof.
unfold _load_view, _save_view. cbn [fst].
rewrite (get_set_same Nat.eqb Nat.eqb_eq).
unfold json_dump_load.
cbn [vd_rotation_center_star vd_selected_star vd_distance_lines vd_star_hop_routes
     vd_camera_pos vd_zoom vd_rotation_x vd_rotation_y vd_rotation_z vd_max_distance
     vd_show_star_names vd_show_galactic_plane vd_show_coordinate_grid
     vd_show_galactic_projections vd_show_multiple_star_inset vd_timestamp get_or].
destruct (truthy (option_map name (rotation_center_star v)));
  [destruct (Dict.get String.eqb _ _)|];
  destruct (distance_lines v) as [|m ms] eqn:Hl;
  destruct (star_hop_routes v) as [|r rs] eqn:Hr;
  cbn; rewrite ?Hl, ?Hr; repeat split; reflexivity.
Qed.

Lemma sample_session_center :
  measured_center_name sample_session = "Sun" /\
  measured_center_name sample_session_reloaded = "Sun".
Proof.
unfold measured_center_name.
change (rotation_center sample_session) with (0, 0, 0).
change (stars_df sample_session) with [sample_sun; sample_alpha; sample_beta].
change (rotation_center sample_session_reloaded) with (x sample_sun, y sample_sun, z sample_sun).
change (stars_df sample_session_reloaded) with [sample_sun; sample_alpha; sample_beta].
cbn [find x y z sample_sun]. fold sample_sun.
rewrite at_center_of_origin. split; reflexivity.
Qed.

(** C8 fails on the code: the selection and the routes come back from a
    save and load of the same slot, but a measurement saved as the tuple
    [("Sun", "Alpha")] comes back as the list [["Sun", "Alpha"]], which no
    tuple equals; the measurement key then appends the pair a second time
    where on the original state it removes it. *)
Theorem save_load_turns_measurement_tuples_into_lists :
  selected_star sample_session_reloaded = selected_star sample_session /\
  star_hop_routes sample_session_reloaded = star_hop_routes sample_session /\
  distance_lines sample_session = [PyTuple ["Sun"; "Alpha"]] /\
  distance_lines sample_session_reloaded = [PyList ["Sun"; "Alpha"]] /\
  distance_lines sample_session_reloaded <> distance_lines sample_session /\
  distance_lines (toggle_measurement sample_session) = [] /\
  distance_lines (toggle_measurement sample_session_reloaded) =
    [PyList ["Sun"; "Alpha"]; PyTuple ["Sun"; "Alpha"]].
Proof.
destruct sample_session_center as [Hc Hc'].
repeat split; try reflexivity.
- discriminate.
- rewrite (toggle_measurement_lines sample_session "Alpha");
    [rewrite Hc; reflexivity | reflexivity | discriminate].
- rewrite (toggle_measurement_lines sample_session_reloaded "Alpha");
    [rewrite Hc'; reflexivity | reflexivity | discriminate].
Qed.

(** ** The three-star scenario *)

(** Settle the comparisons of the goal from the bounds at hand. *)
Ltac decide_cmp :=
  repeat match goal with
  | |- context [Rltb ?a ?b] =>
      first [ replace (Rltb a b) with true by (symmetry; apply Rltb_true; lra)
            | replace (Rltb a b) with false by (symmetry; apply Rltb_false; lra) ]
  | |- context [Rleb ?a ?b] =>
      first [ replace (Rleb a b) with true by (symmetry; apply Rleb_true; lra)
            | replace (Rleb a b) with false by (symmetry; apply Rleb_false; lra) ]
  end.

(** The distances between the three sample stars. *)
Lemma sample_distances :
  dist sample_sun sample_alpha = 3 /\
  1.8 < dist sample_sun sample_beta < 1.81 /\
  1.8 < dist sample_beta sample_alpha < 1.81.
Proof.
unfold dist, _calculate_distance, sample_sun, sample_alpha, sample_beta. cbn [x y z].
split; [|split].
- replace ((3 - 0) ^ 2 + (0 - 0) ^ 2 + (0 - 0) ^ 2) with (3 * 3) by ring.
  apply sqrt_square. lra.
- split.
  + apply Rle_lt_trans with (sqrt (1.8 * 1.8));
      [rewrite sqrt_square; lra | apply sqrt_lt_1; lra].
  + apply Rlt_le_trans with (sqrt (1.81 * 1.81));
      [apply sqrt_lt_1; lra | rewrite sqrt_square; lra].
- split.
  + apply Rle_lt_trans with (sqrt (1.8 * 1.8));
      [rewrite sqrt_square; lra | apply sqrt_lt_1; lra].
  + apply Rlt_le_trans with (sqrt (1.81 * 1.81));
      [apply sqrt_lt_1; lra | rewrite sqrt_square; lra].
Qed.

(** From the Sun to Alpha at 3 light-years the planner hops through Beta:
    Beta is within the hop limit and gets closer; from Beta no candidate
    is left and the route ends at Alpha. *)
Lemma sample_trip_route :
  _calculate_star_hop_route sample_trip =
    Ok (["Sun"; "Beta"; "Alpha"],
        [(["Sun"; "Alpha"], mkEntry (Some (dist sample_sun sample_alpha)) None)]).
Proof.
destruct sample_distances as [Hsa [Hsb Hba]].
unfold _calculate_star_hop_route.
change (selected_star sample_trip) with (Some "Alpha").
change (center_name sample_trip) with (Some "Sun").
change (star_lookup_cache sample_trip)
  with [("Sun", sample_sun); ("Alpha", sample_alpha); ("Beta", sample_beta)].
change (route_cache sample_trip) with (@nil (list string * cache_entry)).
change (max_distance sample_trip) with 20.
cbv [String.eqb Ascii.eqb Bool.eqb subscript Dict.get bind direct_distance_of
     cached_distance Dict.set candidate_stars_of filter map fst snd negb andb
     max_hops max_detour_factor].
change (distance_ly sample_beta) with 1.8.
decide_cmp. cbv iota.
cbv [hop_loop total_distance_from tl find_best_hop fold_left consider_hop bind
     subscript Dict.get String.eqb Ascii.eqb Bool.eqb name_in existsb orb andb negb
     found_closer_hop best_score best_hop lt_best app].
change (name sample_beta) with "Beta".
cbv [String.eqb Ascii.eqb Bool.eqb orb].
decide_cmp. cbv iota beta.
unfold max_detour_factor. decide_cmp. cbv iota beta.
reflexivity.
Qed.

(** * Further properties of the code *)

(** ** The lookup cache: the last row of a name wins *)

Lemma find_snoc {A : Type} (f : A -> bool) (l : list A) (a : A) :
  find f (l ++ [a]) =
    match find f l with
    | Some b => Some b
    | None => if f a then Some a else None
    end.
Proof.
induction l as [|b l IH]; simpl; [reflexivity|].
destruct (f b); [reflexivity | exact IH].
Qed.

Lemma get_set_cases {V : Type} (k k0 : string) (v0 : V) (d : list (string * V)) :
  Dict.get String.eqb k (Dict.set String.eqb k0 v0 d) =
    if String.eqb k0 k then Some v0 else Dict.get String.eqb k d.
Proof.
destruct (String.eqb k0 k) eqn:E.
- apply String.eqb_eq in E. subst k0. apply (get_set_same String.eqb String.eqb_eq).
- apply String.eqb_neq in E.
  apply (get_set_other String.eqb String.eqb_eq). intros H. apply E. symmetry. exact H.
Qed.

(** A dictionary filled row by row under the rows' names holds, for each
    name, what the last row of that name gave. *)
Lemma fill_by_name_get {V : Type} (f : Star -> V) (rows : list Star)
  (d : list (string * V)) (nm : string) :
  Dict.get String.eqb nm
    (fold_left (fun c star => Dict.set String.eqb (name star) (f star) c) rows d) =
    match find (fun s => String.eqb (name s) nm) (rev rows) with
    | Some s => Some (f s)
    | None => Dict.get String.eqb nm d
    end.
Proof.
revert d. induction rows as [|r rows IH]; intros d; simpl; [reflexivity|].
rewrite IH, find_snoc, get_set_cases.
destruct (find (fun s => String.eqb (name s) nm) (rev rows)); [reflexivity|].
destruct (String.eqb (name r) nm); reflexivity.
Qed.

(** X1.  [star_lookup_cache[nm]] is the last row of [stars_df] named [nm],
    and [nm] is a key exactly when some row carries it: of two rows with
    one name the earlier one cannot be looked up. *)
Theorem lookup_cache_holds_last_row_of_a_name (v : PyGameVisualizer) (nm : string) :
  Dict.get String.eqb nm (star_lookup_cache v) =
    find (fun s => String.eqb (name s) nm) (rev (stars_df v)).
Proof.
unfold star_lookup_cache, build_lookup_cache.
rewrite (fill_by_name_get (fun s => s) (stars_df v) [] nm).
destruct (find _ (rev (stars_df v))); reflexivity.
Qed.

(** ** More on the planner *)

Lemma finish_route_end (cache : list (string * Star)) (selected : string)
  (r r' : list string) (e : Star) :
  Dict.get String.eqb selected cache = Some e ->
  finish_route cache selected r = Ok r' ->
  last r' "" = selected \/
  (exists s, Dict.get String.eqb (last r' "") cache = Some s /\ dist s e < 0.05).
Proof.
intros He. unfold finish_route.
destruct (String.eqb (last r "") selected) eqn:E.
- intros H. injection H as <-. left. apply String.eqb_eq. exact E.
- unfold subscript. rewrite He.
  destruct (Dict.get String.eqb (last r "") cache) as [s|] eqn:Hs; [|discriminate].
  cbn [bind].
  destruct (dist s e >=? 0.05) eqn:Hd; intros H; injection H as <-.
  + left. apply last_last.
  + right. exists s. split; [exact Hs|]. apply Rleb_false in Hd. exact Hd.
Qed.

(** The main branch once more, with what the route ends on. *)
Lemma plan_between_distinct_ends (v : PyGameVisualizer) (rcs sel : string) (s e : Star) :
  selected_star v = Some sel ->
  center_name v = Some rcs ->
  rcs <> sel ->
  Dict.get String.eqb rcs (star_lookup_cache v) = Some s ->
  Dict.get String.eqb sel (star_lookup_cache v) = Some e ->
  exists route,
    _calculate_star_hop_route v =
      Ok (route, snd (direct_distance_of (route_cache v) rcs sel s e)) /\
    hd "" route = rcs /\
    (last route "" = sel \/
     exists s', Dict.get String.eqb (last route "") (star_lookup_cache v) = Some s' /\
                dist s' e < 0.05).
Proof.
intros Hsel Hrc Hne Hs He.
destruct (plan_between_distinct v rcs sel s e Hsel Hrc Hne Hs He)
  as [route [Hplan [_ [_ [[more Hmore] _]]]]].
exists route. split; [exact Hplan|]. split; [rewrite Hmore; reflexivity|].
revert Hplan. unfold _calculate_star_hop_route. rewrite Hsel, Hrc.
apply String.eqb_neq in Hne. rewrite Hne.
unfold subscript. rewrite Hs, He. cbn [bind].
destruct (direct_distance_of (route_cache v) rcs sel s e) as [dd rc].
destruct (dd <? 2.0).
- intros H. injection H as <-. left. reflexivity.
- destruct (hop_loop _ _ _ _ _ _ _ _ _ _ _) as [r|ex]; [|discriminate]. cbn [bind].
  destruct (finish_route (star_lookup_cache v) sel r) as [r'|ex] eqn:Hfin;
    [|discriminate]. cbn [bind].
  intros H. injection H as <-.
  apply (finish_route_end _ _ _ _ e He Hfin).
Qed.

(** X3.  Between two different stars of the catalog the route starts with
    the rotation-centre name and ends with the selected name, or else with
    a star less than 0.05 light-years from the selected one (the final
    hop the planner leaves out). *)
Theorem route_starts_at_centre_and_ends_near_destination
  (v : PyGameVisualizer) (rcs sel : string) (s e : Star) :
  selected_star v = Some sel ->
  center_name v = Some rcs ->
  rcs <> sel ->
  Dict.get String.eqb rcs (star_lookup_cache v) = Some s ->
  Dict.get String.eqb sel (star_lookup_cache v) = Some e ->
  exists route rc,
    _calculate_star_hop_route v = Ok (route, rc) /\
    hd "" route = rcs /\
    (last route "" = sel \/
     exists s', Dict.get String.eqb (last route "") (star_lookup_cache v) = Some s' /\
                _calculate_distance (Some s') (Some e) < 0.05).
Proof.
intros Hsel Hrc Hne Hs He.
destruct (plan_between_distinct_ends v rcs sel s e Hsel Hrc Hne Hs He)
  as [route [Hplan Hends]].
exists route, (snd (direct_distance_of (route_cache v) rcs sel s e)).
split; [exact Hplan | exact Hends].
Qed.

Lemma route_starts_at_centre_and_ends_near_destination_witness :
  exists route rc,
    _calculate_star_hop_route sample_trip = Ok (route, rc) /\
    hd "" route = "Sun" /\
    (last route "" = "Alpha" \/
     exists s',
       Dict.get String.eqb (last route "") (star_lookup_cache sample_trip) = Some s' /\
       _calculate_distance (Some s') (Some sample_alpha) < 0.05).
Proof.
apply (route_starts_at_centre_and_ends_near_destination sample_trip "Sun" "Alpha"
         sample_sun sample_alpha); try reflexivity. discriminate.
Defined.

(** X2.  A route the planner returns is empty exactly in the three
    degenerate cases: nothing selected, no star at the rotation centre, or
    the selected star is the rotation-centre star. *)
Theorem route_is_empty_only_without_a_trip (v : PyGameVisualizer)
  (route : list string) (rc : route_cache_t) :
  _calculate_star_hop_route v = Ok (route, rc) ->
  (route = [] <->
   selected_star v = None \/ center_name v = None \/
   center_name v = selected_star v).
Proof.
intros H.
destruct (selected_star v) as [sel|] eqn:Hsel.
2:{ unfold _calculate_star_hop_route in H. rewrite Hsel in H.
    injection H as <- _. split; [left; reflexivity | reflexivity]. }
destruct (center_name v) as [rcs|] eqn:Hrc.
2:{ unfold _calculate_star_hop_route in H. rewrite Hsel, Hrc in H.
    injection H as <- _. split; [right; left; reflexivity | reflexivity]. }
destruct (String.eqb rcs sel) eqn:Heq.
{ unfold _calculate_star_hop_route in H. rewrite Hsel, Hrc, Heq in H.
  injection H as <- _. apply String.eqb_eq in Heq. subst rcs.
  split; [right; right; reflexivity | reflexivity]. }
destruct (Dict.get String.eqb rcs (star_lookup_cache v)) as [s|] eqn:Hs.
2:{ unfold _calculate_star_hop_route, subscript in H.
    rewrite Hsel, Hrc, Heq, Hs in H. discriminate. }
destruct (Dict.get String.eqb sel (star_lookup_cache v)) as [e|] eqn:He.
2:{ unfold _calculate_star_hop_route, subscript in H.
    rewrite Hsel, Hrc, Heq, Hs, He in H. discriminate. }
apply String.eqb_neq in Heq.
destruct (plan_between_distinct v rcs sel s e Hsel Hrc Heq Hs He)
  as [route' [Hplan [Hlen _]]].
rewrite Hplan in H. injection H as <- _.
split.
- intros ->. simpl in Hlen. lia.
- intros [H|[H|H]]; try discriminate. injection H as H. contradiction.
Qed.

Lemma route_is_empty_only_without_a_trip_witness :
  _calculate_star_hop_route sample_at_sun = Ok ([], []) /\
  (@nil string = [] <->
   selected_star sample_at_sun = None \/ center_name sample_at_sun = None \/
   center_name sample_at_sun = selected_star sample_at_sun).
Proof.
split; [reflexivity|].
apply (route_is_empty_only_without_a_trip sample_at_sun [] []). reflexivity.
Defined.

(** X4.  The add-route key, between two different stars of the catalog,
    appends to [star_hop_routes] exactly the route the planner returns and
    keeps the planner's route cache: the branch that would append a copy
    completed with the destination is never taken, because the planner
    leaves the destination out only within 0.05 light-years of it. *)
Theorem add_route_appends_the_planned_route (v : PyGameVisualizer) (rcs sel : string)
  (s e : Star) :
  selected_star v = Some sel ->
  sel <> "" ->
  center_name v = Some rcs ->
  rcs <> sel ->
  Dict.get String.eqb rcs (star_lookup_cache v) = Some s ->
  Dict.get String.eqb sel (star_lookup_cache v) = Some e ->
  exists route rc,
    _calculate_star_hop_route v = Ok (route, rc) /\
    add_route v =
      Ok (set_star_hop_routes (star_hop_routes v ++ [route]) (set_route_cache rc v)).
Proof.
intros Hsel Hne0 Hrc Hne Hs He.
destruct (plan_between_distinct_ends v rcs sel s e Hsel Hrc Hne Hs He)
  as [route [Hplan [_ Hend]]].
destruct (plan_between_distinct v rcs sel s e Hsel Hrc Hne Hs He)
  as [route' [Hplan' [Hlen _]]].
rewrite Hplan in Hplan'. injection Hplan' as <-.
exists route, (snd (direct_distance_of (route_cache v) rcs sel s e)).
split; [exact Hplan|].
unfold add_route. rewrite Hsel. cbn [truthy].
apply String.eqb_neq in Hne0. rewrite Hne0. cbn [negb].
rewrite Hplan. cbn [bind].
assert (Hlen1 : (1 <=? List.length route)%nat = true) by (apply Nat.leb_le; lia).
rewrite Hlen1.
change (star_lookup_cache (set_route_cache _ v)) with (star_lookup_cache v).
change (star_hop_routes (set_route_cache _ v)) with (star_hop_routes v).
destruct (String.eqb (last route "") sel) eqn:Elast; cbn [negb]; [reflexivity|].
destruct Hend as [Hend|[s' [Hs' Hd]]].
- rewrite Hend, String.eqb_refl in Elast. discriminate.
- unfold subscript. rewrite Hs', He. cbn [bind].
  assert (Hlt : (dist s' e <? 0.05) = true) by (apply Rltb_true; exact Hd).
  rewrite Hlt. reflexivity.
Qed.

Lemma add_route_appends_the_planned_route_witness :
  exists route rc,
    _calculate_star_hop_route sample_trip = Ok (route, rc) /\
    add_route sample_trip =
      Ok (set_star_hop_routes (star_hop_routes sample_trip ++ [route])
            (set_route_cache rc sample_trip)).
Proof.
apply (add_route_appends_the_planned_route sample_trip "Sun" "Alpha"
         sample_sun sample_alpha); try reflexivity; discriminate.
Defined.

(** The names the loop can put on a route. *)
Lemma hop_loop_names (cache : list (string * Star)) (cands : list Star)
  (start_star end_star : Star) (selected : string) (dd mhd : R) (n : nat) :
  forall (route : list string) (current_star : Star) (visited r : list string),
    hop_loop cache cands start_star end_star selected dd mhd n route current_star visited
      = Ok r ->
    forall nm, In nm r ->
      In nm route \/ nm = selected \/ exists c, In c cands /\ name c = nm.
Proof.
induction n as [|n IH]; intros route current_star visited r H nm Hin.
- injection H as <-. left. exact Hin.
- simpl in H.
  assert (Hleave : forall r0, Ok (route ++ [selected]) = Ok r0 -> In nm r0 ->
            In nm route \/ nm = selected \/ exists c, In c cands /\ name c = nm).
  { intros r0 H0 Hin0. injection H0 as <-. apply in_app_or in Hin0.
    destruct Hin0 as [H0|[<-|[]]]; [left; exact H0 | right; left; reflexivity]. }
  destruct (dist current_star end_star <? mhd * 0.6); [apply (Hleave r H Hin)|].
  destruct (total_distance_from cache start_star (tl route) 0) as [t|ex];
    [|discriminate]. cbn [bind] in H.
  destruct (t >? dd * max_detour_factor - dist current_star end_star);
    [apply (Hleave r H Hin)|].
  destruct (best_hop (find_best_hop current_star end_star (dist current_star end_star)
                        mhd visited cands)) as [hop|] eqn:Hbest;
    [|apply (Hleave r H Hin)].
  destruct (subscript cache hop) as [next|ex]; [|discriminate]. cbn [bind] in H.
  destruct (IH _ _ _ _ H nm Hin) as [H1|H1]; [|right; exact H1].
  apply in_app_or in H1. destruct H1 as [H1|[<-|[]]]; [left; exact H1|].
  right. right. apply best_hop_is_candidate in Hbest.
  destruct Hbest as [c [Hc [Hn _]]]. exists c. split; assumption.
Qed.

(** X5.  Every name on a route the planner returns is the rotation-centre
    name, the selected name, or the name of a catalog star within the
    distance filter [max_distance]: stars beyond the filter are never used
    as hops. *)
Theorem route_hops_are_stars_within_the_filter (v : PyGameVisualizer)
  (route : list string) (rc : route_cache_t) (nm : string) :
  _calculate_star_hop_route v = Ok (route, rc) ->
  In nm route ->
  center_name v = Some nm \/ selected_star v = Some nm \/
  exists star,
    Dict.get String.eqb nm (star_lookup_cache v) = Some star /\
    name star = nm /\
    distance_ly star <= max_distance v.
Proof.
intros H Hin.
destruct (selected_star v) as [sel|] eqn:Hsel.
2:{ unfold _calculate_star_hop_route in H. rewrite Hsel in H.
    injection H as <- _. contradiction. }
destruct (center_name v) as [rcs|] eqn:Hrc.
2:{ unfold _calculate_star_hop_route in H. rewrite Hsel, Hrc in H.
    injection H as <- _. contradiction. }
unfold _calculate_star_hop_route in H. rewrite Hsel, Hrc in H.
destruct (String.eqb rcs sel); [injection H as <- _; contradiction|].
destruct (subscript (star_lookup_cache v) rcs) as [s|ex]; [|discriminate].
cbn [bind] in H.
destruct (subscript (star_lookup_cache v) sel) as [e|ex]; [|discriminate].
cbn [bind] in H.
destruct (direct_distance_of (route_cache v) rcs sel s e) as [dd rc0].
destruct (dd <? 2.0).
{ injection H as <- _. destruct Hin as [<-|[<-|[]]];
    [left; reflexivity | right; left; reflexivity]. }
destruct (hop_loop _ _ _ _ _ _ _ _ _ _ _) as [r|ex] eqn:Hloop; [|discriminate].
cbn [bind] in H.
destruct (finish_route (star_lookup_cache v) sel r) as [r'|ex] eqn:Hfin; [|discriminate].
cbn [bind] in H. injection H as <- _.
assert (Hin_r : In nm r \/ nm = sel).
{ unfold finish_route in Hfin.
  destruct (String.eqb (last r "") sel); [injection Hfin as <-; left; exact Hin|].
  destruct (subscript (star_lookup_cache v) (last r "")); [|discriminate].
  cbn [bind] in Hfin.
  destruct (subscript (star_lookup_cache v) sel); [|discriminate].
  cbn [bind] in Hfin.
  destruct (_ >=? 0.05); injection Hfin as <-; [|left; exact Hin].
  apply in_app_or in Hin. destruct Hin as [Hin|[<-|[]]]; [left; exact Hin | right; reflexivity]. }
destruct Hin_r as [Hin_r| ->]; [|right; left; reflexivity].
destruct (hop_loop_names _ _ _ _ _ _ _ _ _ _ _ _ Hloop nm Hin_r) as [[<-|[]]|[->|[c [Hc Hn]]]].
- left. reflexivity.
- right. left. reflexivity.
- right. right. unfold candidate_stars_of in Hc.
  apply in_map_iff in Hc. destruct Hc as [[k c'] [Hk Hc]]. simpl in Hk. subst c'.
  apply filter_In in Hc. destruct Hc as [Hc Hcond]. simpl in Hcond.
  apply andb_true_iff in Hcond. destruct Hcond as [_ Hd]. apply Rleb_true in Hd.
  assert (Hkn := lookup_cache_key_is_name (stars_df v) k c Hc).
  exists c. split; [|split; [exact Hn | exact Hd]].
  rewrite <- Hn, Hkn.
  apply (in_get_nodup String.eqb String.eqb_eq); [apply lookup_cache_keys_nodup | exact Hc].
Qed.

Lemma route_hops_are_stars_within_the_filter_witness :
  In "Beta" ["Sun"; "Beta"; "Alpha"] /\
  (center_name sample_trip = Some "Beta" \/ selected_star sample_trip = Some "Beta" \/
   exists star,
     Dict.get String.eqb "Beta" (star_lookup_cache sample_trip) = Some star /\
     name star = "Beta" /\
     distance_ly star <= max_distance sample_trip).
Proof.
assert (Hin : In "Beta" ["Sun"; "Beta"; "Alpha"]) by (right; left; reflexivity).
split; [exact Hin|].
apply (route_hops_are_stars_within_the_filter sample_trip ["Sun"; "Beta"; "Alpha"]
         [(["Sun"; "Alpha"], mkEntry (Some (dist sample_sun sample_alpha)) None)] "Beta");
  [exact sample_trip_route | exact Hin].
Defined.

(** X6.  A hop chosen by a selection round is the name of an unvisited
    candidate whose hop length lies between 0.5 light-years and
    [max_hop_distance]; and when some surviving candidate gets closer to
    the destination, the chosen one gets closer too. *)
Theorem chosen_hop_respects_the_limits
  (current_star end_star : Star) (dist_to_end max_hop_distance : R)
  (visited : list string) (candidate_stars : list Star) (h : string) :
  best_hop (find_best_hop current_star end_star dist_to_end max_hop_distance
              visited candidate_stars) = Some h ->
  exists c,
    In c candidate_stars /\ name c = h /\
    ~ In h visited /\
    0.5 <= dist current_star c <= max_hop_distance /\
    ((exists c', In c' candidate_stars /\
        ~ In (name c') visited /\
        0.5 <= dist current_star c' <= max_hop_distance /\
        dist c' end_star < dist_to_end) ->
     dist c end_star < dist_to_end).
Proof.
intros Hh.
destruct (find_best_hop_inv current_star end_star dist_to_end max_hop_distance
            visited candidate_stars) as [_ Hbest].
unfold best_is in Hbest. rewrite Hh in Hbest.
destruct (best_score _) as [sc|]; [|contradiction].
destruct Hbest as [c [Hn [_ [pre [post [Hpool _]]]]]].
assert (Hinp : In c (competing current_star end_star dist_to_end max_hop_distance
                       visited candidate_stars)).
{ rewrite Hpool. apply in_or_app. right. left. reflexivity. }
assert (Helig : forall c0, eligible current_star max_hop_distance visited c0 = true <->
          ~ In (name c0) visited /\ 0.5 <= dist current_star c0 <= max_hop_distance).
{ intros c0. unfold eligible. rewrite andb_true_iff, !negb_true_iff, orb_false_iff.
  rewrite !Rltb_false. split.
  - intros [Hv [H1 H2]]. split; [|split; assumption].
    intros Hin. apply name_in_true in Hin. rewrite Hin in Hv. discriminate.
  - intros [Hv [H1 H2]]. split; [|split; assumption].
    destruct (name_in (name c0) visited) eqn:E; [|reflexivity].
    apply name_in_true in E. contradiction. }
destruct (competing_incl _ _ _ _ _ _ _ Hinp) as [Hin Hel].
apply Helig in Hel. destruct Hel as [Hv Hd].
exists c. split; [exact Hin|]. split; [exact Hn|]. rewrite <- Hn.
split; [exact Hv|]. split; [exact Hd|].
intros [c' [Hin' [Hv' [Hd' Hcl']]]].
unfold competing in Hinp.
assert (Hex : existsb (fun c0 => eligible current_star max_hop_distance visited c0 &&
                                improving end_star dist_to_end c0) candidate_stars = true).
{ apply existsb_exists. exists c'. split; [exact Hin'|].
  apply andb_true_iff. split.
  - apply Helig. split; assumption.
  - unfold improving. apply Rltb_true. exact Hcl'. }
rewrite Hex in Hinp. apply filter_In in Hinp. destruct Hinp as [_ Hc].
apply andb_true_iff in Hc. destruct Hc as [_ Hc].
unfold improving in Hc. apply Rltb_true in Hc. exact Hc.
Qed.

Lemma sample_round :
  best_hop (find_best_hop sample_sun sample_alpha 3 2.1 ["Sun"] [sample_beta])
    = Some "Beta".
Proof.
destruct sample_distances as [Hsa [Hsb Hba]].
cbv [find_best_hop fold_left consider_hop name_in existsb found_closer_hop best_score
     best_hop lt_best].
change (name sample_beta) with "Beta".
cbv [String.eqb Ascii.eqb Bool.eqb orb].
decide_cmp. reflexivity.
Qed.

Lemma chosen_hop_respects_the_limits_witness :
  exists c,
    In c [sample_beta] /\ name c = "Beta" /\
    ~ In "Beta" ["Sun"] /\
    0.5 <= dist sample_sun c <= 2.1 /\
    ((exists c', In c' [sample_beta] /\
        ~ In (name c') ["Sun"] /\
        0.5 <= dist sample_sun c' <= 2.1 /\
        dist c' sample_alpha < 3) ->
     dist c sample_alpha < 3).
Proof.
apply (chosen_hop_respects_the_limits sample_sun sample_alpha 3 2.1 ["Sun"]
         [sample_beta] "Beta").
exact sample_round.
Defined.

(** X7.  The planner keeps the route cache consistent: when every cached
    ['distance'] is the distance between the two stars its key names, the
    same holds of the cache the planner leaves. *)
Theorem planner_preserves_cache_consistency (v : PyGameVisualizer)
  (route : list string) (rc : route_cache_t) :
  cache_consistent v ->
  _calculate_star_hop_route v = Ok (route, rc) ->
  cache_consistent (set_route_cache rc v).
Proof.
intros Hc H. apply (planner_keeps_cache_consistent v route rc Hc H).
Qed.

Lemma planner_preserves_cache_consistency_witness :
  cache_consistent sample_short /\
  cache_consistent
    (set_route_cache
       [(["Sun"; "Beta"], mkEntry (Some (dist sample_sun sample_beta)) None)]
       sample_short).
Proof.
assert (Hc : cache_consistent sample_short).
{ intros a b d sa sb H. discriminate H. }
split; [exact Hc|].
apply (planner_preserves_cache_consistency sample_short ["Sun"; "Beta"]);
  [exact Hc | exact sample_short_route].
Defined.

(** ** More on selection by click *)

Lemma click_fold_raise (v : PyGameVisualizer) (mouse_x mouse_y : R)
  (items : list (string * (R * R * R))) (e : exn) :
  fold_left (click_step v mouse_x mouse_y) items (Raise e) = Raise e.
Proof. induction items as [|i items IH]; simpl; [reflexivity | exact IH]. Qed.

Lemma click_inv_step (v : PyGameVisualizer) (mouse_x mouse_y : R)
  (seen : list (string * (R * R * R))) (st st' : click_state)
  (item : string * (R * R * R)) :
  click_inv v mouse_x mouse_y seen st ->
  click_step v mouse_x mouse_y (Ok st) item = Ok st' ->
  click_inv v mouse_x mouse_y (seen ++ [item]) st'.
Proof.
intros Hinv. destruct item as [nm [[sx sy] sf]].
unfold click_step. cbn [bind]. unfold subscript.
destruct (Dict.get String.eqb nm (star_lookup_cache v)) as [star|] eqn:Hget;
  [|discriminate]. cbn [bind].
(* a new item that does not count leaves the invariant as it is *)
assert (Hskip :
  (max_distance v < distance_ly star \/
   hit_size_of v star <= click_distance mouse_x mouse_y sx sy) ->
  click_inv v mouse_x mouse_y (seen ++ [(nm, (sx, sy, sf))]) st).
{ intros Hout. unfold click_inv in *.
  destruct (closest_star st) as [n0|]; destruct (closest_distance st) as [d0|];
    destruct (closest_star_obj st) as [s0|]; try contradiction.
  - destruct Hinv as [[sx0 [sy0 [sf0 [Hin0 Hd0]]]] [Hg0 [Hr0 [Hh0 Hmin]]]].
    split; [exists sx0, sy0, sf0; split; [apply in_or_app; left; exact Hin0 | exact Hd0]|].
    split; [exact Hg0|]. split; [exact Hr0|]. split; [exact Hh0|].
    intros nm' sx' sy' sf' star' Hin Hg Hr Hh.
    apply in_app_or in Hin. destruct Hin as [Hin|[Heq|[]]].
    + apply (Hmin nm' sx' sy' sf' star' Hin Hg Hr Hh).
    + injection Heq as <- <- <- <-. rewrite Hget in Hg. injection Hg as <-.
      destruct Hout as [Hout|Hout]; lra.
  - intros nm' sx' sy' sf' star' Hin Hg Hr.
    apply in_app_or in Hin. destruct Hin as [Hin|[Heq|[]]].
    + apply (Hinv nm' sx' sy' sf' star' Hin Hg Hr).
    + injection Heq as <- <- <- <-. rewrite Hget in Hg. injection Hg as <-.
      destruct Hout as [Hout|Hout]; lra. }
destruct (distance_ly star >? max_distance v) eqn:Hfar.
{ intros H. injection H as <-. apply Hskip. left. apply Rltb_true. exact Hfar. }
apply Rltb_false in Hfar.
destruct (click_distance mouse_x mouse_y sx sy <? hit_size_of v star) eqn:Hhit.
2:{ intros H. cbn [andb] in H. injection H as <-. apply Hskip. right.
    apply Rltb_false. exact Hhit. }
apply Rltb_true in Hhit. cbn [andb].
destruct (lt_best (click_distance mouse_x mouse_y sx sy) (closest_distance st)) eqn:Hbest;
  intros H; injection H as <-.
- (* the new item is a nearer hit *)
  unfold click_inv in *. cbn [closest_star closest_distance closest_star_obj].
  split; [exists sx, sy, sf; split; [apply in_or_app; right; left; reflexivity
                                    | reflexivity]|].
  split; [exact Hget|]. split; [exact Hfar|]. split; [exact Hhit|].
  intros nm' sx' sy' sf' star' Hin Hg Hr Hh.
  apply in_app_or in Hin. destruct Hin as [Hin|[Heq|[]]].
  + destruct (closest_star st) as [n0|]; destruct (closest_distance st) as [d0|];
      destruct (closest_star_obj st) as [s0|]; try contradiction.
    * destruct Hinv as [_ [_ [_ [_ Hmin]]]].
      assert (H0 := Hmin nm' sx' sy' sf' star' Hin Hg Hr Hh).
      simpl in Hbest. apply Rltb_true in Hbest. lra.
    * assert (H0 := Hinv nm' sx' sy' sf' star' Hin Hg Hr). lra.
  + injection Heq as <- <- <- <-. lra.
- (* an earlier hit is at least as near *)
  unfold click_inv in *.
  destruct (closest_star st) as [n0|]; destruct (closest_distance st) as [d0|];
    destruct (closest_star_obj st) as [s0|]; try contradiction;
    [|simpl in Hbest; discriminate].
  simpl in Hbest. apply Rltb_false in Hbest.
  destruct Hinv as [[sx0 [sy0 [sf0 [Hin0 Hd0]]]] [Hg0 [Hr0 [Hh0 Hmin]]]].
  split; [exists sx0, sy0, sf0; split; [apply in_or_app; left; exact Hin0 | exact Hd0]|].
  split; [exact Hg0|]. split; [exact Hr0|]. split; [exact Hh0|].
  intros nm' sx' sy' sf' star' Hin Hg Hr Hh.
  apply in_app_or in Hin. destruct Hin as [Hin|[Heq|[]]].
  + apply (Hmin nm' sx' sy' sf' star' Hin Hg Hr Hh).
  + injection Heq as <- <- <- <-. exact Hbest.
Qed.

Lemma click_inv_fold (v : PyGameVisualizer) (mouse_x mouse_y : R)
  (items seen : list (string * (R * R * R))) (st st' : click_state) :
  click_inv v mouse_x mouse_y seen st ->
  fold_left (click_step v mouse_x mouse_y) items (Ok st) = Ok st' ->
  click_inv v mouse_x mouse_y (seen ++ items) st'.
Proof.
revert seen st. induction items as [|item items IH]; intros seen st Hinv H;
  cbn [fold_left] in H.
- injection H as <-. rewrite app_nil_r. exact Hinv.
- destruct (click_step v mouse_x mouse_y (Ok st) item) as [st1|e] eqn:Hstep.
  + replace (seen ++ item :: items) with ((seen ++ [item]) ++ items)
      by (rewrite <- app_assoc; reflexivity).
    apply (IH _ st1); [|exact H].
    apply (click_inv_step v mouse_x mouse_y seen st st1 item Hinv Hstep).
  + rewrite click_fold_raise in H. discriminate.
Qed.

Lemma click_scan_inv (v : PyGameVisualizer) (mouse_x mouse_y : R) (st : click_state) :
  fold_left (click_step v mouse_x mouse_y) (screen_coords_cache v)
    (Ok (mkClick None None None)) = Ok st ->
  click_inv v mouse_x mouse_y (screen_coords_cache v) st.
Proof.
intros H.
apply (click_inv_fold v mouse_x mouse_y (screen_coords_cache v) []
         (mkClick None None None) st); [|exact H].
unfold click_inv. cbn. intros nm sx sy sf star [].
Qed.

(** X8.  When a click leaves a star selected, that star is in the frame's
    cache and within the distance filter, the click is inside its hit
    radius, and no other in-range star whose hit radius holds the click is
    strictly nearer to the click. *)
Theorem click_selects_the_nearest_hit_star (v v' : PyGameVisualizer)
  (mouse_x mouse_y : R) (set_rotation_center b : bool) (nm : string) :
  _handle_mouse_click v (mouse_x, mouse_y) set_rotation_center = Ok (v', b) ->
  selected_star v' = Some nm ->
  exists sx sy sf star,
    In (nm, (sx, sy, sf)) (screen_coords_cache v) /\
    Dict.get String.eqb nm (star_lookup_cache v) = Some star /\
    distance_ly star <= max_distance v /\
    sqrt ((mouse_x - sx) ^ 2 + (mouse_y - sy) ^ 2) <
      Rmax 5 ((15 - (abs_magnitude star + 5) * (13 / 20)) * glow_factor v) /\
    (forall nm' sx' sy' sf' star',
       In (nm', (sx', sy', sf')) (screen_coords_cache v) ->
       Dict.get String.eqb nm' (star_lookup_cache v) = Some star' ->
       distance_ly star' <= max_distance v ->
       sqrt ((mouse_x - sx') ^ 2 + (mouse_y - sy') ^ 2) <
         Rmax 5 ((15 - (abs_magnitude star' + 5) * (13 / 20)) * glow_factor v) ->
       sqrt ((mouse_x - sx) ^ 2 + (mouse_y - sy) ^ 2) <=
         sqrt ((mouse_x - sx') ^ 2 + (mouse_y - sy') ^ 2)).
Proof.
unfold _handle_mouse_click.
destruct (fold_left _ _ _) as [st|e] eqn:Hscan; [|discriminate]. cbn [bind].
apply click_scan_inv in Hscan. unfold click_inv in Hscan.
intros H Hsel.
assert (Hcs : closest_star st = Some nm).
{ destruct (closest_star_obj st); [destruct set_rotation_center|];
    injection H as <- _; exact Hsel. }
rewrite Hcs in Hscan.
destruct (closest_distance st) as [d|]; [|contradiction].
destruct (closest_star_obj st) as [star|]; [|contradiction].
destruct Hscan as [[sx [sy [sf [Hin Hd]]]] [Hg [Hr [Hh Hmin]]]].
exists sx, sy, sf, star. subst d.
split; [exact Hin|]. split; [exact Hg|]. split; [exact Hr|]. split; [exact Hh|].
exact Hmin.
Qed.


Lemma sample_click_hit (shift : bool) :
  _handle_mouse_click sample_frame (512, 384) shift =
    Ok (if shift
        then _center_on_star (0, 0, 0) (Some sample_sun)
               (set_selected_star (Some "Sun") sample_frame)
        else set_selected_star (Some "Sun") sample_frame,
        shift).
Proof.
unfold _handle_mouse_click.
change (screen_coords_cache sample_frame) with [("Sun", (512, 384, 1))].
cbn [fold_left click_step bind].
change (subscript (star_lookup_cache sample_frame) "Sun") with (Ok sample_sun).
cbn [bind].
assert (H1 : (distance_ly sample_sun >? max_distance sample_frame) = false).
{ apply Rltb_false. unfold sample_sun, sample_frame, init. cbn. lra. }
assert (H2 : (click_distance 512 384 512 384 <? hit_size_of sample_frame sample_sun)
             = true).
{ apply Rltb_true. unfold click_distance, hit_size_of.
  replace ((512 - 512) ^ 2 + (384 - 384) ^ 2) with 0 by ring. rewrite sqrt_0.
  apply Rlt_le_trans with 5; [lra | apply Rmax_l]. }
rewrite H1, H2. cbn [andb lt_best closest_distance closest_star closest_star_obj].
destruct shift; reflexivity.
Qed.

Lemma click_selects_the_nearest_hit_star_witness :
  exists sx sy sf star,
    In ("Sun", (sx, sy, sf)) (screen_coords_cache sample_frame) /\
    Dict.get String.eqb "Sun" (star_lookup_cache sample_frame) = Some star /\
    distance_ly star <= max_distance sample_frame /\
    sqrt ((512 - sx) ^ 2 + (384 - sy) ^ 2) <
      Rmax 5 ((15 - (abs_magnitude star + 5) * (13 / 20)) * glow_factor sample_frame) /\
    (forall nm' sx' sy' sf' star',
       In (nm', (sx', sy', sf')) (screen_coords_cache sample_frame) ->
       Dict.get String.eqb nm' (star_lookup_cache sample_frame) = Some star' ->
       distance_ly star' <= max_distance sample_frame ->
       sqrt ((512 - sx') ^ 2 + (384 - sy') ^ 2) <
         Rmax 5 ((15 - (abs_magnitude star' + 5) * (13 / 20)) * glow_factor sample_frame) ->
       sqrt ((512 - sx) ^ 2 + (384 - sy) ^ 2) <=
         sqrt ((512 - sx') ^ 2 + (384 - sy') ^ 2)).
Proof.
apply (click_selects_the_nearest_hit_star sample_frame
         (set_selected_star (Some "Sun") sample_frame) 512 384 false false "Sun").
- exact (sample_click_hit false).
- reflexivity.
Defined.


(** ** The frame's cache *)

(** X10.  The cache [_render_stars] rebuilds holds, for every name, the
    projection of the last row of that name that is within the distance
    filter or takes part in a measurement or a route, and nothing for a
    name without such a row; no other attribute changes. *)
Theorem render_stars_caches_the_visible_rows (v : PyGameVisualizer) (nm : string) :
  Dict.get String.eqb nm (screen_coords_cache (_render_stars v)) =
    option_map (fun s => _world_to_screen v (x s) (y s) (z s))
      (find (fun s => String.eqb (name s) nm)
         (rev (filter
                 (fun s => (distance_ly s <=? max_distance v) ||
                           name_in (name s)
                             (flat_map items_of (distance_lines v) ++
                              List.concat (star_hop_routes v)))
                 (stars_df v)))) /\
  _render_stars v = set_screen_coords_cache (screen_coords_cache (_render_stars v)) v.
Proof.
split; [|reflexivity].
unfold _render_stars. cbn [screen_coords_cache set_screen_coords_cache].
rewrite (fill_by_name_get
           (fun s => _world_to_screen v (x s) (y s) (z s))
           (filter (visible v) (stars_df v)) [] nm).
change (filter (visible v) (stars_df v)) with
  (filter (fun s => (distance_ly s <=? max_distance v) ||
                    name_in (name s)
                      (flat_map items_of (distance_lines v) ++
                       List.concat (star_hop_routes v)))
     (stars_df v)).
destruct (find _ _); reflexivity.
Qed.

Lemma squares_sum_zero (a b : R) : a ^ 2 + b ^ 2 = 0 -> a = 0 /\ b = 0.
Proof.
intros H.
assert (Ha := pow2_ge_0 a). assert (Hb := pow2_ge_0 b).
assert (Ha0 : a ^ 2 = 0) by lra. assert (Hb0 : b ^ 2 = 0) by lra.
rewrite <- Rsqr_pow2 in Ha0, Hb0.
split; apply Rsqr_0_uniq; assumption.
Qed.

Lemma click_fold_ok (v : PyGameVisualizer) (mouse_x mouse_y : R)
  (items : list (string * (R * R * R))) :
  (forall nm c, In (nm, c) items ->
     Dict.mem String.eqb nm (star_lookup_cache v) = true) ->
  forall st, exists st',
    fold_left (click_step v mouse_x mouse_y) items (Ok st) = Ok st'.
Proof.
induction items as [|[nm [[sx sy] sf]] items IH]; intros Hwf st; cbn [fold_left].
- exists st. reflexivity.
- assert (Hmem := Hwf nm (sx, sy, sf) (or_introl eq_refl)).
  unfold Dict.mem in Hmem.
  destruct (Dict.get String.eqb nm (star_lookup_cache v)) as [star|] eqn:Hget;
    [|discriminate].
  assert (Hstep : exists st1,
    click_step v mouse_x mouse_y (Ok st) (nm, (sx, sy, sf)) = Ok st1).
  { unfold click_step, subscript. cbn [bind]. rewrite Hget. cbn [bind].
    destruct (distance_ly star >? max_distance v); [eexists; reflexivity|].
    destruct (_ && _); eexists; reflexivity. }
  destruct Hstep as [st1 Hst1]. rewrite Hst1.
  apply IH. intros nm' c Hin. apply (Hwf nm' c). right. exact Hin.
Qed.

(** X11.  A click exactly on the cached pixel of an in-range star selects
    a star, and the selected star is drawn at that very pixel (the first
    such star of the cache when several coincide). *)
Theorem click_on_a_star_pixel_selects_a_star_there (v : PyGameVisualizer)
  (nm : string) (sx sy sf : R) (star : Star) (set_rotation_center : bool) :
  (forall nm' c, In (nm', c) (screen_coords_cache v) ->
     Dict.mem String.eqb nm' (star_lookup_cache v) = true) ->
  In (nm, (sx, sy, sf)) (screen_coords_cache v) ->
  Dict.get String.eqb nm (star_lookup_cache v) = Some star ->
  distance_ly star <= max_distance v ->
  exists v' b nm' sf',
    _handle_mouse_click v (sx, sy) set_rotation_center = Ok (v', b) /\
    selected_star v' = Some nm' /\
    In (nm', (sx, sy, sf')) (screen_coords_cache v).
Proof.
intros Hwf Hin Hget Hrange.
destruct (click_fold_ok v sx sy (screen_coords_cache v) Hwf (mkClick None None None))
  as [st Hscan].
assert (Hinv := click_scan_inv v sx sy st Hscan).
assert (Hzero : click_distance sx sy sx sy = 0).
{ unfold click_distance. replace ((sx - sx) ^ 2 + (sy - sy) ^ 2) with 0 by ring.
  apply sqrt_0. }
assert (Hhit : click_distance sx sy sx sy < hit_size_of v star).
{ rewrite Hzero. unfold hit_size_of.
  apply Rlt_le_trans with 5; [lra | apply Rmax_l]. }
unfold click_inv in Hinv.
destruct (closest_star st) as [nm'|] eqn:Hcs; destruct (closest_distance st) as [d|];
  destruct (closest_star_obj st) as [obj|] eqn:Hobj; try contradiction.
- destruct Hinv as [[sx' [sy' [sf' [Hin' Hd]]]] [_ [_ [_ Hmin]]]].
  assert (Hle := Hmin nm sx sy sf star Hin Hget Hrange Hhit).
  rewrite Hzero, Hd in Hle.
  assert (Hsame : sx' = sx /\ sy' = sy).
  { unfold click_distance in Hle.
    assert (H0 : sqrt ((sx - sx') ^ 2 + (sy - sy') ^ 2) = 0).
    { apply Rle_antisym; [exact Hle | apply sqrt_pos]. }
    apply sqrt_eq_0 in H0;
      [|apply Rplus_le_le_0_compat; apply pow2_ge_0].
    destruct (squares_sum_zero _ _ H0) as [Ha Hb]. split; lra. }
  destruct Hsame as [-> ->].
  exists (if set_rotation_center
          then _center_on_star (x obj, y obj, z obj) (Some obj)
                 (set_selected_star (Some nm') v)
          else set_selected_star (Some nm') v),
         set_rotation_center, nm', sf'.
  unfold _handle_mouse_click. rewrite Hscan. cbn [bind]. rewrite Hobj, Hcs.
  destruct set_rotation_center; repeat split; try reflexivity; exact Hin'.
- exfalso. assert (H0 := Hinv nm sx sy sf star Hin Hget Hrange). lra.
Qed.

Lemma click_on_a_star_pixel_selects_a_star_there_witness :
  exists v' b nm' sf',
    _handle_mouse_click sample_frame (512, 384) false = Ok (v', b) /\
    selected_star v' = Some nm' /\
    In (nm', (512, 384, sf')) (screen_coords_cache sample_frame).
Proof.
apply (click_on_a_star_pixel_selects_a_star_there sample_frame "Sun" 512 384 1
         sample_sun false).
- intros nm c [H|[]]. injection H as <- _. reflexivity.
- left. reflexivity.
- reflexivity.
- unfold sample_sun, sample_frame, init. cbn. lra.
Defined.

(** ** More on measurements *)

Lemma remove_first_others (m : pyseq) (lines : list pyseq) :
  filter (fun p => negb (pyseq_eqb m p)) (remove_first m lines) =
  filter (fun p => negb (pyseq_eqb m p)) lines \/
  pyseq_in m lines = false.
Proof.
induction lines as [|l lines IH]; simpl; [left; reflexivity|].
destruct (pyseq_eqb m l) eqn:E; simpl.
- left. reflexivity.
- rewrite E. simpl. destruct IH as [IH|IH]; [left; f_equal; exact IH | right; exact IH].
Qed.

Lemma remove_first_length (m : pyseq) (lines : list pyseq) :
  pyseq_in m lines = true ->
  S (List.length (remove_first m lines)) = List.length lines.
Proof.
induction lines as [|l lines IH]; simpl; [discriminate|].
destruct (pyseq_eqb m l); simpl; [reflexivity|].
intros H. f_equal. apply IH. exact H.
Qed.

(** X12.  A toggle of the pair [(pivot, selected)] leaves every other
    measurement in place and in order, and changes the length of the list
    by exactly one: one shorter when the pair was present, one longer when
    it was not. *)
Theorem toggle_pair_touches_one_entry (lines : list pyseq) (pivot selected : string) :
  pivot <> selected ->
  filter (fun p => negb (pyseq_eqb (PyTuple [pivot; selected]) p))
    (toggle_pair pivot selected lines) =
  filter (fun p => negb (pyseq_eqb (PyTuple [pivot; selected]) p)) lines /\
  List.length (toggle_pair pivot selected lines) =
    (if pyseq_in (PyTuple [pivot; selected]) lines
     then Nat.pred (List.length lines)
     else S (List.length lines)).
Proof.
intros Hne.
assert (E : String.eqb selected pivot = false).
{ apply String.eqb_neq. intros H. apply Hne. symmetry. exact H. }
unfold toggle_pair. rewrite E.
destruct (pyseq_in (PyTuple [pivot; selected]) lines) eqn:Hin.
- split.
  + destruct (remove_first_others (PyTuple [pivot; selected]) lines) as [H|H];
      [exact H | rewrite H in Hin; discriminate].
  + rewrite <- (remove_first_length _ _ Hin). reflexivity.
- split.
  + rewrite filter_app. cbn [filter]. rewrite pyseq_eqb_refl. cbn [negb].
    apply app_nil_r.
  + rewrite length_app. cbn [List.length]. lia.
Qed.

Lemma toggle_pair_touches_one_entry_witness :
  "Sun" <> "Alpha" /\
  List.length (toggle_pair "Sun" "Alpha" [PyTuple ["Sun"; "Alpha"]; PyTuple ["Sun"; "Beta"]])
    = 1%nat.
Proof.
assert (Hne : "Sun" <> "Alpha") by discriminate.
split; [exact Hne|].
destruct (toggle_pair_touches_one_entry
            [PyTuple ["Sun"; "Alpha"]; PyTuple ["Sun"; "Beta"]] "Sun" "Alpha" Hne)
  as [_ Hlen].
exact Hlen.
Defined.

(** ** More on saved views *)

(** X13.  Saving a view and loading the same slot at once gives back the
    routes as they were, the selected name as it was (an empty selection
    comes back as none), and the measurements with the same names in the
    same order. *)
Theorem save_then_load_keeps_routes_selection_and_names (v : PyGameVisualizer)
  (now : string) (slot : nat) (files : saved_views_t) :
  let v' := fst (_load_view v slot (fst (_save_view v now slot files))) in
  star_hop_routes v' = star_hop_routes v /\
  selected_star v' = (if truthy (selected_star v) then selected_star v else None) /\
  map items_of (distance_lines v') = map items_of (distance_lines v) /\
  snd (_load_view v slot (fst (_save_view v now slot files))) =
    ViewLoaded slot (Some now).
Proof.
destruct (save_then_load v now slot files) as [Hsel [Hroutes Hlines]].
cbv zeta. split; [exact Hroutes|]. split; [exact Hsel|]. split.
- rewrite Hlines, map_map. apply map_ext. intros a. reflexivity.
- unfold _load_view, _save_view. cbn [fst].
  rewrite (get_set_same Nat.eqb Nat.eqb_eq). reflexivity.
Qed.

(** X14.  Saving a view and loading the same slot at once gives back the
    three rotation angles, the zoom, the distance filter and the five view
    toggles.  The pan offset comes back only when no rotation-centre star
    is recorded or its name is not a key of the lookup cache: otherwise
    loading re-centres on that star, which resets the pan offset to
    [(0, 0)]. *)
Theorem save_then_load_restores_camera_but_resets_pan (v : PyGameVisualizer)
  (now : string) (slot : nat) (files : saved_views_t) :
  let v' := fst (_load_view v slot (fst (_save_view v now slot files))) in
  rotation_x v' = rotation_x v /\ rotation_y v' = rotation_y v /\
  rotation_z v' = rotation_z v /\ zoom v' = zoom v /\
  max_distance v' = max_distance v /\
  show_star_names v' = show_star_names v /\
  show_galactic_plane v' = show_galactic_plane v /\
  show_coordinate_grid v' = show_coordinate_grid v /\
  show_galactic_projections v' = show_galactic_projections v /\
  show_multiple_star_inset v' = show_multiple_star_inset v /\
  camera_pos v' =
    match rotation_center_star v with
    | Some s =>
        if negb (String.eqb (name s) "") &&
           Dict.mem String.eqb (name s) (star_lookup_cache v)
        then (0, 0) else camera_pos v
    | None => camera_pos v
    end.
Proof.
unfold _load_view, _save_view. cbn [fst].
rewrite (get_set_same Nat.eqb Nat.eqb_eq).
unfold json_dump_load.
cbn [vd_rotation_center_star vd_selected_star vd_distance_lines vd_star_hop_routes
     vd_camera_pos vd_zoom vd_rotation_x vd_rotation_y vd_rotation_z vd_max_distance
     vd_show_star_names vd_show_galactic_plane vd_show_coordinate_grid
     vd_show_galactic_projections vd_show_multiple_star_inset vd_timestamp get_or].
unfold Dict.mem.
change (star_lookup_cache (mkVis (stars_df v) _ _ _ _ _ _ _ _ _ _ _ _ _ _ _ _ _ _ _ _ _ _))
  with (star_lookup_cache v).
destruct (rotation_center_star v) as [s|]; cbn [option_map truthy get_or].
- destruct (negb (String.eqb (name s) "")); cbn [andb].
  + destruct (Dict.get String.eqb (name s) (star_lookup_cache v));
      destruct (nonempty (distance_lines v)); destruct (nonempty (star_hop_routes v));
      cbn; repeat split; reflexivity.
  + destruct (nonempty (distance_lines v)); destruct (nonempty (star_hop_routes v));
      cbn; repeat split; reflexivity.
- destruct (nonempty (distance_lines v)); destruct (nonempty (star_hop_routes v));
    cbn; repeat split; reflexivity.
Qed.

(** X15.  Slots are independent: saving to one slot does not change what
    loading another slot gives. *)
Theorem saving_a_slot_leaves_the_other_slots (v w : PyGameVisualizer) (now : string)
  (slot other : nat) (files : saved_views_t) :
  other <> slot ->
  _load_view v other (fst (_save_view w now slot files)) = _load_view v other files.
Proof.
intros Hne. unfold _load_view, _save_view. cbn [fst].
rewrite (get_set_other Nat.eqb Nat.eqb_eq _ _ _ _ Hne). reflexivity.
Qed.

Lemma saving_a_slot_leaves_the_other_slots_witness :
  2%nat <> 1%nat /\
  _load_view sample_trip 2 (fst (_save_view sample_session "2024-01-01 00:00:00" 1 [])) =
    (sample_trip, NoSavedView 2).
Proof.
assert (Hne : 2%nat <> 1%nat) by discriminate.
split; [exact Hne|].
rewrite (saving_a_slot_leaves_the_other_slots sample_trip sample_session
           "2024-01-01 00:00:00" 1 2 [] Hne).
reflexivity.
Defined.

(** ** Keys and wheel *)

(** X16.  The [+] key never leaves the distance filter above 20
    light-years and the [-] key never leaves it below 3.  A filter between
    3 and 20 stays there, [+] not lowering it and [-] not raising it; from
    19 on [+] gives 20, and up to 4 [-] gives 3. *)
Theorem distance_filter_keys_keep_the_range (v : PyGameVisualizer) :
  max_distance (increase_max_distance v) <= 20 /\
  3 <= max_distance (decrease_max_distance v) /\
  (3 <= max_distance v <= 20 ->
   3 <= max_distance (increase_max_distance v) <= 20 /\
   3 <= max_distance (decrease_max_distance v) <= 20 /\
   max_distance v <= max_distance (increase_max_distance v) /\
   max_distance (decrease_max_distance v) <= max_distance v) /\
  (19 <= max_distance v -> max_distance (increase_max_distance v) = 20) /\
  (max_distance v <= 4 -> max_distance (decrease_max_distance v) = 3).
Proof.
unfold increase_max_distance, decrease_max_distance. cbn [max_distance set_max_distance].
unfold Rmin, Rmax.
destruct (Rle_dec 20.0 (max_distance v + 1.0));
  destruct (Rle_dec 3.0 (max_distance v - 1.0));
  repeat split; intros; lra.
Qed.

Lemma distance_filter_keys_keep_the_range_witness :
  3 <= max_distance (init [sample_sun]) <= 20 /\
  3 <= max_distance (increase_max_distance (init [sample_sun])) <= 20 /\
  max_distance (increase_max_distance (init [sample_sun])) = 20.
Proof.
assert (H : 3 <= max_distance (init [sample_sun]) <= 20) by (cbn; lra).
destruct (distance_filter_keys_keep_the_range (init [sample_sun]))
  as [_ [_ [Hrange [Htop _]]]].
split; [exact H|]. split.
- destruct (Hrange H) as [H1 _]. exact H1.
- apply Htop. cbn. lra.
Defined.

Lemma center_on_selected_keeps (v : PyGameVisualizer) :
  zoom (center_on_selected v) = zoom v /\
  selected_star (center_on_selected v) = selected_star v /\
  distance_lines (center_on_selected v) = distance_lines v /\
  star_hop_routes (center_on_selected v) = star_hop_routes v /\
  rotation_x (center_on_selected v) = rotation_x v /\
  rotation_y (center_on_selected v) = rotation_y v /\
  rotation_z (center_on_selected v) = rotation_z v.
Proof.
unfold center_on_selected.
destruct (selected_star v) as [nm|] eqn:Hsel; [|rewrite Hsel; repeat split; reflexivity].
destruct (first_row_named (stars_df v) nm);
  cbn; rewrite ?Hsel; repeat split; reflexivity.
Qed.

(** X17.  The wheel keeps a zoom that lies between 5 and 400 within that
    range, whatever the button, and never changes the selection, the
    measurements, the routes or the rotation angles. *)
Theorem wheel_keeps_the_zoom_range (v : PyGameVisualizer) (button : nat) :
  5 <= zoom v <= 400 ->
  5 <= zoom (mouse_wheel button v) <= 400 /\
  selected_star (mouse_wheel button v) = selected_star v /\
  distance_lines (mouse_wheel button v) = distance_lines v /\
  star_hop_routes (mouse_wheel button v) = star_hop_routes v /\
  rotation_x (mouse_wheel button v) = rotation_x v /\
  rotation_y (mouse_wheel button v) = rotation_y v /\
  rotation_z (mouse_wheel button v) = rotation_z v.
Proof.
intros Hz.
destruct (center_on_selected_keeps v) as [Hzc [Hs [Hl [Hr [Hx [Hy Hzz]]]]]].
assert (Hup : forall zm, 5 <= zm <= 400 -> 5 <= Rmin 400 (zm * 1.1) <= 400).
{ intros zm H. unfold Rmin. destruct (Rle_dec _ _); lra. }
assert (Hdown : forall zm, 5 <= zm <= 400 -> 5 <= Rmax 5 (zm / 1.1) <= 400).
{ intros zm H. unfold Rmax. destruct (Rle_dec _ _); lra. }
unfold mouse_wheel.
destruct (((button =? 4)%nat || (button =? 5)%nat) && truthy (selected_star v)).
- destruct (button =? 4)%nat; [|destruct (button =? 5)%nat];
    cbn [zoom set_zoom selected_star distance_lines star_hop_routes
         rotation_x rotation_y rotation_z];
    rewrite ?Hzc; repeat split; auto; try (apply Hup; exact Hz);
    try (apply Hdown; exact Hz); lra.
- destruct (button =? 4)%nat; [|destruct (button =? 5)%nat];
    cbn [zoom set_zoom selected_star distance_lines star_hop_routes
         rotation_x rotation_y rotation_z];
    repeat split; auto; try (apply Hup; exact Hz); try (apply Hdown; exact Hz); lra.
Qed.

Lemma wheel_keeps_the_zoom_range_witness :
  5 <= zoom sample_trip <= 400 /\
  5 <= zoom (mouse_wheel 4 sample_trip) <= 400.
Proof.
assert (H : 5 <= zoom sample_trip <= 400) by (cbn; lra).
split; [exact H|].
destruct (wheel_keeps_the_zoom_range sample_trip 4 H) as [H1 _]. exact H1.
Defined.

Lemma at_center_self (s : Star) : at_center (x s, y s, z s) s = true.
Proof.
unfold at_center.
replace (x s - x s) with 0 by ring. replace (y s - y s) with 0 by ring.
replace (z s - z s) with 0 by ring. rewrite Rabs_R0.
assert (H : (0 <? 0.0001) = true) by (apply Rltb_true; lra).
rewrite H. reflexivity.
Qed.

Lemma at_center_close (c : R * R * R) (s : Star) :
  at_center c s = true <->
  Rabs (x s - fst (fst c)) < 0.0001 /\ Rabs (y s - snd (fst c)) < 0.0001 /\
  Rabs (z s - snd c) < 0.0001.
Proof.
destruct c as [[cx cy] cz]. unfold at_center. cbn [fst snd].
rewrite !andb_true_iff, !Rltb_true. tauto.
Qed.

(** X18.  The centre-on-selected key does nothing when no row carries the
    selected name.  Otherwise the rotation centre becomes the coordinates
    of the first row of that name, the pan offset is reset, and the
    rotation-centre star is the first row of the catalog within 0.0001 of
    those coordinates on each axis: such a row exists, and it need not be
    the selected star. *)
Theorem key_c_centres_on_the_first_row_at_the_selection (v : PyGameVisualizer)
  (nm : string) :
  selected_star v = Some nm ->
  nm <> "" ->
  match first_row_named (stars_df v) nm with
  | None => key_c v = v
  | Some star =>
      rotation_center (key_c v) = (x star, y star, z star) /\
      camera_pos (key_c v) = (0, 0) /\
      rotation_center_star (key_c v) =
        find (at_center (x star, y star, z star)) (stars_df v) /\
      exists s',
        rotation_center_star (key_c v) = Some s' /\
        In s' (stars_df v) /\
        Rabs (x s' - x star) < 0.0001 /\ Rabs (y s' - y star) < 0.0001 /\
        Rabs (z s' - z star) < 0.0001
  end.
Proof.
intros Hsel Hne. unfold key_c, center_on_selected. rewrite Hsel. cbn [truthy].
apply String.eqb_neq in Hne. rewrite Hne. cbn [negb].
destruct (first_row_named (stars_df v) nm) as [star|] eqn:Hrow; [|reflexivity].
unfold _center_on_star. cbn [rotation_center camera_pos rotation_center_star set_center].
split; [reflexivity|]. split; [reflexivity|]. split; [reflexivity|].
unfold first_row_named in Hrow. apply find_some in Hrow. destruct Hrow as [Hin _].
destruct (find (at_center (x star, y star, z star)) (stars_df v)) as [s'|] eqn:Hfind.
- exists s'. split; [reflexivity|].
  apply find_some in Hfind. destruct Hfind as [Hin' Hat].
  apply at_center_close in Hat. cbn [fst snd] in Hat. tauto.
- exfalso. apply (find_none _ _ Hfind star) in Hin.
  rewrite at_center_self in Hin. discriminate.
Qed.

Lemma key_c_centres_on_the_first_row_at_the_selection_witness :
  rotation_center (key_c sample_trip) = (x sample_alpha, y sample_alpha, z sample_alpha) /\
  camera_pos (key_c sample_trip) = (0, 0).
Proof.
assert (Hne : "Alpha" <> "") by discriminate.
assert (H := key_c_centres_on_the_first_row_at_the_selection sample_trip "Alpha"
               eq_refl Hne).
change (first_row_named (stars_df sample_trip) "Alpha") with (Some sample_alpha) in H.
destruct H as [H1 [H2 _]]. split; assumption.
Defined.


(** ** Route metrics of the legend *)

(** The running total never goes down along a route. *)
Lemma total_hop_distance_grows (rows : list Star) (route : list string) :
  forall total t : R,
    total_hop_distance_from rows route total = Some t -> total <= t.
Proof.
induction route as [|a rest IH]; intros total t Ht;
  cbn [total_hop_distance_from] in Ht.
- injection Ht as <-. lra.
- destruct rest as [|b rest'].
  + injection Ht as <-. lra.
  + destruct (first_row_named rows a) as [sa|]; [|discriminate].
    destruct (first_row_named rows b) as [sb|]; [|discriminate].
    assert (H := IH _ _ Ht). assert (Hd := dist_nonneg sa sb). lra.
Qed.

(** X20.  When the legend computes the metrics of a route (nothing is
    cached under the route), the three figures are not negative; and for a
    route of two stops the total hop distance is the direct distance and
    the efficiency is 100. *)
Theorem legend_direct_route_is_fully_efficient (v : PyGameVisualizer)
  (route : list string) (total direct efficiency : R) (rc : route_cache_t) :
  Dict.get list_eqb route (route_cache v) = None ->
  route_legend v route = (Metrics total direct efficiency, rc) ->
  0 <= direct /\ 0 <= total /\ 0 <= efficiency /\
  (List.length route = 2%nat -> total = direct /\ efficiency = 100).
Proof.
intros Hfresh. unfold route_legend. rewrite Hfresh.
destruct (List.length route <? 2)%nat eqn:Hlen; [discriminate|].
destruct (first_row_named (stars_df v) (hd "" route)) as [s|] eqn:Hs; [|discriminate].
destruct (first_row_named (stars_df v) (last route "")) as [e|] eqn:He; [|discriminate].
destruct (total_hop_distance_from (stars_df v) route 0) as [t|] eqn:Ht; [|discriminate].
intros H. injection H as <- <- <- _.
assert (Hd := dist_nonneg s e).
assert (Ht0 := total_hop_distance_grows _ _ _ _ Ht).
split; [exact Hd|]. split; [exact Ht0|]. split.
- destruct (t >? 0) eqn:Hpos; [|lra]. apply Rltb_true in Hpos.
  apply Rmult_le_pos; [|lra].
  apply Rmult_le_pos; [exact Hd | left; apply Rinv_0_lt_compat; exact Hpos].
- intros H2.
  destruct route as [|a [|b [|c rest]]]; try discriminate.
  cbn [total_hop_distance_from hd last] in *.
  rewrite Hs, He in Ht. injection Ht as <-.
  split; [lra|].
  destruct (0 + dist s e >? 0) eqn:Hpos; [|reflexivity].
  apply Rltb_true in Hpos. field. lra.
Qed.

Lemma legend_direct_route_is_fully_efficient_witness :
  route_legend sample_trip ["Sun"; "Alpha"] =
    (Metrics (0 + dist sample_sun sample_alpha) (dist sample_sun sample_alpha)
       (if 0 + dist sample_sun sample_alpha >? 0
        then dist sample_sun sample_alpha / (0 + dist sample_sun sample_alpha) * 100
        else 100),
     [(["Sun"; "Alpha"],
       mkEntry None
         (Some (0 + dist sample_sun sample_alpha, dist sample_sun sample_alpha,
                if 0 + dist sample_sun sample_alpha >? 0
                then dist sample_sun sample_alpha /
                     (0 + dist sample_sun sample_alpha) * 100
                else 100)))]) /\
  0 + dist sample_sun sample_alpha = dist sample_sun sample_alpha /\
  (if 0 + dist sample_sun sample_alpha >? 0
   then dist sample_sun sample_alpha / (0 + dist sample_sun sample_alpha) * 100
   else 100) = 100.
Proof.
split; [reflexivity|].
destruct (legend_direct_route_is_fully_efficient sample_trip ["Sun"; "Alpha"]
            (0 + dist sample_sun sample_alpha) (dist sample_sun sample_alpha)
            (if 0 + dist sample_sun sample_alpha >? 0
             then dist sample_sun sample_alpha / (0 + dist sample_sun sample_alpha) * 100
             else 100)
            [(["Sun"; "Alpha"],
              mkEntry None
                (Some (0 + dist sample_sun sample_alpha, dist sample_sun sample_alpha,
                       if 0 + dist sample_sun sample_alpha >? 0
                       then dist sample_sun sample_alpha /
                            (0 + dist sample_sun sample_alpha) * 100
                       else 100)))]
            eq_refl eq_refl) as [_ [_ [_ H2]]].
apply H2. reflexivity.
Defined.

(** X21.  A direct route planned for the first time gets a legend line
    without figures: the planner stores the direct distance under the key
    [(origin, destination)], which is also the legend's key for the
    two-stop route, and the entry found there has no ['total_distance']
    (the [KeyError] the legend catches). *)
Theorem fresh_direct_route_has_no_legend_metrics (v : PyGameVisualizer)
  (rcs sel : string) (s e : Star) (rc : route_cache_t) :
  selected_star v = Some sel ->
  center_name v = Some rcs ->
  rcs <> sel ->
  Dict.get String.eqb rcs (star_lookup_cache v) = Some s ->
  Dict.get String.eqb sel (star_lookup_cache v) = Some e ->
  cached_distance (route_cache v) [rcs; sel] = None ->
  cached_distance (route_cache v) [sel; rcs] = None ->
  _calculate_star_hop_route v = Ok ([rcs; sel], rc) ->
  route_legend (set_route_cache rc v) [rcs; sel] = (PlainSummary, rc).
Proof.
intros Hsel Hrc Hne Hs He Hk Hrev Hplan.
destruct (plan_between_distinct v rcs sel s e Hsel Hrc Hne Hs He)
  as [route [Hplan' _]].
rewrite Hplan' in Hplan. injection Hplan as _ Hcache.
unfold direct_distance_of in Hcache. rewrite Hk, Hrev in Hcache. cbn [snd] in Hcache.
subst rc. unfold route_legend.
cbn [List.length Nat.ltb Nat.leb route_cache set_route_cache].
rewrite (get_set_same list_eqb list_eqb_eq). reflexivity.
Qed.

Lemma fresh_direct_route_has_no_legend_metrics_witness :
  _calculate_star_hop_route sample_short =
    Ok (["Sun"; "Beta"],
        [(["Sun"; "Beta"], mkEntry (Some (dist sample_sun sample_beta)) None)]) /\
  route_legend
    (set_route_cache
       [(["Sun"; "Beta"], mkEntry (Some (dist sample_sun sample_beta)) None)]
       sample_short)
    ["Sun"; "Beta"] =
    (PlainSummary,
     [(["Sun"; "Beta"], mkEntry (Some (dist sample_sun sample_beta)) None)]).
Proof.
split; [exact sample_short_route|].
apply (fresh_direct_route_has_no_legend_metrics sample_short "Sun" "Beta"
         sample_sun sample_beta); try reflexivity.
- discriminate.
- exact sample_short_route.
Defined.

(** X22.  The legend's metrics are memoized: once a route has a line with
    figures, asking again with the cache left behind gives the same
    figures and leaves the cache as it is. *)
Theorem legend_metrics_are_memoized (v : PyGameVisualizer) (route : list string)
  (total direct efficiency : R) (rc : route_cache_t) :
  route_legend v route = (Metrics total direct efficiency, rc) ->
  route_legend (set_route_cache rc v) route = (Metrics total direct efficiency, rc).
Proof.
unfold route_legend. cbn [route_cache set_route_cache stars_df].
destruct (List.length route <? 2)%nat; [discriminate|].
destruct (Dict.get list_eqb route (route_cache v)) as [entry|] eqn:Hget.
- destruct (ce_metrics entry) as [[[t d] ef]|] eqn:Hm; [|discriminate].
  intros H. injection H as <- <- <- <-. rewrite Hget, Hm. reflexivity.
- destruct (first_row_named (stars_df v) (hd "" route)); [|discriminate].
  destruct (first_row_named (stars_df v) (last route "")); [|discriminate].
  destruct (total_hop_distance_from (stars_df v) route 0); [|discriminate].
  intros H. injection H as <- <- <- <-.
  rewrite (get_set_same list_eqb list_eqb_eq). reflexivity.
Qed.

Lemma legend_metrics_are_memoized_witness :
  exists rc,
    route_legend sample_trip ["Sun"; "Alpha"] =
      (Metrics (0 + dist sample_sun sample_alpha) (dist sample_sun sample_alpha)
         (if 0 + dist sample_sun sample_alpha >? 0
          then dist sample_sun sample_alpha / (0 + dist sample_sun sample_alpha) * 100
          else 100), rc) /\
    route_legend (set_route_cache rc sample_trip) ["Sun"; "Alpha"] =
      (Metrics (0 + dist sample_sun sample_alpha) (dist sample_sun sample_alpha)
         (if 0 + dist sample_sun sample_alpha >? 0
          then dist sample_sun sample_alpha / (0 + dist sample_sun sample_alpha) * 100
          else 100), rc).
Proof.
eexists. split; [reflexivity|].
apply (legend_metrics_are_memoized sample_trip ["Sun"; "Alpha"]). reflexivity.
Defined.

(** ** Colours *)

(** Every colour component writes as two characters, the first of which
    is not [#], that read back as the component. *)
Lemma component_round_trip (n : N) :
  (n < 256)%N ->
  exists c1 c2,
    format_02x n = String c1 (String c2 EmptyString) /\
    Ascii.eqb c1 "#" = false /\
    int16 (String c1 (String c2 EmptyString)) = Some (Z.of_N n).
Proof.
intros Hn.
assert (Hall : forallb
  (fun k =>
     match format_02x (N.of_nat k) with
     | String c1 (String c2 EmptyString) =>
         negb (Ascii.eqb c1 "#") &&
         match int16 (String c1 (String c2 EmptyString)) with
         | Some r => Z.eqb r (Z.of_N (N.of_nat k))
         | None => false
         end
     | _ => false
     end) (seq 0 256) = true) by (vm_compute; reflexivity).
rewrite forallb_forall in Hall.
assert (Hin : In (N.to_nat n) (seq 0 256)) by (apply in_seq; lia).
specialize (Hall _ Hin). rewrite N2Nat.id in Hall.
destruct (format_02x n) as [|c1 [|c2 [|c3 rest]]]; try discriminate.
apply andb_true_iff in Hall. destruct Hall as [Hc Hi].
exists c1, c2. split; [reflexivity|]. split; [apply negb_true_iff; exact Hc|].
destruct (int16 (String c1 (String c2 EmptyString))) as [r|]; [|discriminate].
apply Z.eqb_eq in Hi. rewrite Hi. reflexivity.
Qed.

Lemma hex_color_round_trip_aux (r g b : N) :
  (r < 256)%N -> (g < 256)%N -> (b < 256)%N ->
  _hex_to_rgb (hex_color r g b) = Some (Z.of_N r, Z.of_N g, Z.of_N b).
Proof.
intros Hr Hg Hb.
destruct (component_round_trip r Hr) as [r1 [r2 [Hfr [Hr1 Hir]]]].
destruct (component_round_trip g Hg) as [g1 [g2 [Hfg [_ Hig]]]].
destruct (component_round_trip b Hb) as [b1 [b2 [Hfb [_ Hib]]]].
unfold _hex_to_rgb, hex_color. rewrite Hfr, Hfg, Hfb.
cbn [append lstrip_hash]. rewrite Hr1.
change (Ascii.eqb "#" "#") with true. cbn [substring].
rewrite Hir, Hig, Hib. reflexivity.
Qed.

(** X23.  The colour strings the loader writes read back in the renderer:
    for components up to 255, [_hex_to_rgb] of [#rrggbb] gives back the
    three components. *)
Theorem hex_color_round_trip (r g b : N) :
  (r < 256)%N -> (g < 256)%N -> (b < 256)%N ->
  _hex_to_rgb (hex_color r g b) = Some (Z.of_N r, Z.of_N g, Z.of_N b).
Proof. apply hex_color_round_trip_aux. Qed.

Lemma hex_color_round_trip_witness :
  _hex_to_rgb (hex_color 30 100 255) = Some (30%Z, 100%Z, 255%Z).
Proof.
apply (hex_color_round_trip 30 100 255); reflexivity.
Defined.

Lemma b_v_rgb_components (b_v : R) :
  let '(r, g, b) := b_v_rgb b_v in (r < 256 /\ g < 256 /\ b < 256)%N.
Proof.
unfold b_v_rgb.
repeat match goal with
       | |- context [if ?c then _ else _] => destruct c
       end; repeat split; reflexivity.
Qed.

(** X24.  Every colour [b_v_to_rgb] returns is one the renderer reads:
    for a number, or one of the two tags, the result is a [#rrggbb] string
    that [_hex_to_rgb] turns into three components between 0 and 255.  A
    number always gets a colour; a string that is neither tag gets none
    (the comparison with a number raises). *)
Theorem b_v_colours_read_back (b_v : b_v_value) :
  (forall colour, b_v_to_rgb b_v = Some colour ->
     exists r g b,
       _hex_to_rgb colour = Some (r, g, b) /\
       (0 <= r <= 255 /\ 0 <= g <= 255 /\ 0 <= b <= 255)%Z) /\
  match b_v with
  | BVNum _ => b_v_to_rgb b_v <> None
  | BVStr s =>
      b_v_to_rgb b_v = None <->
      s <> "SIRIUS_BLUE" /\ contains "white_dwarf" s = false
  end.
Proof.
split.
- intros colour H.
  assert (Hgen : forall r g b : N, (r < 256 /\ g < 256 /\ b < 256)%N ->
            colour = hex_color r g b ->
            exists r' g' b',
              _hex_to_rgb colour = Some (r', g', b') /\
              (0 <= r' <= 255 /\ 0 <= g' <= 255 /\ 0 <= b' <= 255)%Z).
  { intros r g b [Hr [Hg Hb]] ->.
    exists (Z.of_N r), (Z.of_N g), (Z.of_N b).
    split; [apply hex_color_round_trip_aux; assumption | lia]. }
  destruct b_v as [s|x]; cbn [b_v_to_rgb] in H.
  + destruct (String.eqb s "SIRIUS_BLUE").
    * injection H as <-. apply (Hgen 30%N 100%N 255%N); [lia | reflexivity].
    * destruct (contains "white_dwarf" s); [|discriminate].
      injection H as <-. apply (Hgen 180%N 200%N 255%N); [lia | reflexivity].
  + assert (Hc := b_v_rgb_components (Rmax (-0.4) (Rmin 2.0 x))).
    destruct (b_v_rgb (Rmax (-0.4) (Rmin 2.0 x))) as [[r g] b].
    injection H as <-. apply (Hgen r g b); [exact Hc | reflexivity].
- destruct b_v as [s|x]; cbn [b_v_to_rgb].
  + destruct (String.eqb s "SIRIUS_BLUE") eqn:E.
    * apply String.eqb_eq in E. split; [discriminate | intros [H _]; contradiction].
    * apply String.eqb_neq in E.
      destruct (contains "white_dwarf" s); split; try discriminate.
      -- intros [_ H]. discriminate.
      -- intros _. split; [exact E | reflexivity].
      -- reflexivity.
  + destruct (b_v_rgb (Rmax (-0.4) (Rmin 2.0 x))) as [[r g] b]. discriminate.
Qed.

Lemma b_v_colours_read_back_witness :
  exists r g b,
    _hex_to_rgb (hex_color 180 200 255) = Some (r, g, b) /\
    (0 <= r <= 255 /\ 0 <= g <= 255 /\ 0 <= b <= 255)%Z.
Proof.
destruct (b_v_colours_read_back (BVStr "0.1_white_dwarf")) as [H _].
apply (H (hex_color 180 200 255)). reflexivity.
Defined.

Lemma substring_beyond (n m : nat) (s : string) :
  (String.length s <= n)%nat -> substring n m s = EmptyString.
Proof.
revert n. induction s as [|c s IH]; intros n Hlen.
- destruct n, m; reflexivity.
- destruct n as [|n]; [simpl in Hlen; lia|].
  simpl. apply IH. simpl in Hlen. lia.
Qed.

(** X25.  A colour string with fewer than five characters after its
    leading [#] signs is rejected by [_hex_to_rgb] ([ValueError] on the
    empty third slice): the short form [#rgb] is not a colour here. *)
Theorem hex_to_rgb_rejects_short_strings (hex : string) :
  (String.length (lstrip_hash hex) <= 4)%nat ->
  _hex_to_rgb hex = None.
Proof.
intros Hlen. unfold _hex_to_rgb.
rewrite (substring_beyond 4 2 _ Hlen).
destruct (int16 (substring 0 2 (lstrip_hash hex))); [|reflexivity].
destruct (int16 (substring 2 2 (lstrip_hash hex))); reflexivity.
Qed.

Lemma hex_to_rgb_rejects_short_strings_witness :
  (String.length (lstrip_hash "#fff") <= 4)%nat /\ _hex_to_rgb "#fff" = None.
Proof.
assert (H : (String.length (lstrip_hash "#fff") <= 4)%nat) by (cbn; lia).
split; [exact H|].
apply (hex_to_rgb_rejects_short_strings "#fff" H).
Defined.
